(** * aitaskflo-site: the knowledge report and the endpoint smoke test

    A shallow embedding of the two stand-alone scripts of the repository,
    [analyze_knowledge.py] and [test_medical_ai.py], and the properties of
    their observable behaviour.

    Both scripts are straight-line programs that print to standard output
    and may raise.  They are embedded in a small state-and-exception monad:
    the state is what the script mutates (standard output, and the [results]
    list of the smoke test), an uncaught exception ends the run and keeps
    the state reached so far.

    Standard output is the list of the arguments of the successive [print]
    calls.  What the interpreter provides and the scripts only pass along
    (the wall clock, float arithmetic and float formatting, [str()] of a
    decoded JSON value or of an exception) is the interface [Interp]; the
    replies of the HTTP endpoint are an argument of the smoke test.

    A Python str is a [string], one [ascii] per character.  The literals
    of the scripts are written as they are in the sources; the pictographs
    in them take several [ascii] each, which matters to nothing the
    scripts slice, measure or compare.  Slices and [len] count [ascii]:
    that is exact on ASCII text, such as the five texts of the smoke test. *)

From Stdlib Require Import String Ascii List Bool Arith ZArith Lia DecimalString.
From Stdlib Require DecimalNat DecimalFacts.
From Stdlib Require QArith Floats.
Set Warnings "-inexact-float".
Import ListNotations.
Set Warnings "-register-all".
Open Scope string_scope.
Open Scope list_scope.

(** * Python run-time notions shared by the two scripts *)

Module Py.

(** The exceptions the scripts can meet.  All of them derive from Python's
    [Exception], so an [except Exception] clause catches every one. *)
Inductive exn : Type :=
| KeyError (key : string)          (* d[key] on a dict without that key *)
| TypeError                        (* subscript or len() of a value that has none *)
| JSONDecodeError                  (* response.json() on a body that is not JSON *)
| RequestException (msg : string)  (* requests.post: refused, timed out, ... *)
| ZeroDivisionError.

(** A computation over state [S]: it ends with a value or with a raised
    exception, and in both cases with the state it reached. *)
Definition M (S A : Type) : Type := S -> (exn + A) * S.

Definition ret {S A} (a : A) : M S A := fun s => (inr a, s).

Definition raise {S A} (e : exn) : M S A := fun s => (inl e, s).

Definition bind {S A B} (m : M S A) (k : A -> M S B) : M S B :=
  fun s => match m s with
           | (inl e, s') => (inl e, s')
           | (inr a, s') => k a s'
           end.

(** [try: body / except Exception as e: handler e]. *)
Definition try_except {S A} (body : M S A) (handler : exn -> M S A) : M S A :=
  fun s => match body s with
           | (inl e, s') => handler e s'
           | (inr a, s') => (inr a, s')
           end.

(** A pure step that may raise, run inside a computation. *)
Definition lift {S A} (r : exn + A) : M S A :=
  match r with
  | inl e => raise e
  | inr a => ret a
  end.

Declare Scope py_scope.
Delimit Scope py_scope with py.
Notation "x <- m ;; k" := (bind m (fun x => k))
  (at level 61, m at next level, right associativity) : py_scope.
Notation "m ;; k" := (bind m (fun _ => k))
  (at level 61, right associativity) : py_scope.
Open Scope py_scope.

(** [for x in l: body x]. *)
Fixpoint for_each {S A} (l : list A) (body : A -> M S unit) : M S unit :=
  match l with
  | [] => ret tt
  | x :: l' => body x ;; for_each l' body
  end.

(** [[f(x) for x in l]] where [f] may raise: the first failure propagates. *)
Fixpoint comprehension {A B} (f : A -> exn + B) (l : list A) : exn + list B :=
  match l with
  | [] => inr []
  | x :: l' =>
      match f x with
      | inl e => inl e
      | inr y =>
          match comprehension f l' with
          | inl e => inl e
          | inr ys => inr (y :: ys)
          end
      end
  end.

(** A dict read at one key: the key is absent ([None]) or bound to a value.
    [d[key]] raises [KeyError] when absent, [d.get(key, default)] falls
    back on the default. *)
Definition getitem {A} (key : string) (entry : option A) : exn + A :=
  match entry with
  | Some v => inr v
  | None => inl (KeyError key)
  end.

Definition dict_get {A} (entry : option A) (default : A) : A :=
  match entry with
  | Some v => v
  | None => default
  end.

(** Truth value of a list: [if l:] holds when [l] is not empty. *)
Definition truthy {A} (l : list A) : bool :=
  match l with
  | [] => false
  | _ :: _ => true
  end.

(** [enumerate(l, start)]. *)
Definition enumerate {A} (l : list A) (start : nat) : list (nat * A) :=
  combine (seq start (length l)) l.

(** [l[-n:]]: the slice starts at [max(len(l) - n, 0)]. *)
Definition last_slice {A} (n : nat) (l : list A) : list A :=
  skipn (length l - n) l.

(** [str(n)] for a non-negative int. *)
Definition str (n : nat) : string := NilZero.string_of_uint (Nat.to_uint n).

(** The newline character and [c * n] for a one-character string. *)
Definition nl : string := String (ascii_of_nat 10) EmptyString.

Fixpoint repeat_str (c : string) (n : nat) : string :=
  match n with
  | O => EmptyString
  | S n' => (c ++ repeat_str c n')%string
  end.

Definition rule : string := repeat_str "=" 70.

(** [sub in s] for two strings. *)
Fixpoint contains (sub s : string) : bool :=
  prefix sub s ||
  match s with
  | EmptyString => false
  | String _ s' => contains sub s'
  end.

(** [collections.Counter]: a dict from key to count, which keeps its keys
    in the order of their first insertion. *)
Fixpoint counter_incr (key : string) (c : list (string * nat)) : list (string * nat) :=
  match c with
  | [] => [(key, 1)]
  | (k, n) :: c' =>
      if String.eqb k key then (k, S n) :: c' else (k, n) :: counter_incr key c'
  end.

Definition Counter (keys : list string) : list (string * nat) :=
  fold_left (fun c key => counter_incr key c) keys [].

(** The count a counter holds for a key, 0 for a key it does not have. *)
Fixpoint counter_count (key : string) (c : list (string * nat)) : nat :=
  match c with
  | [] => 0
  | (k, n) :: c' => if String.eqb k key then n else counter_count key c'
  end.

(** The distinct elements of a list, each at the place of its first
    occurrence: the order in which a dict filled from the list holds them. *)
Fixpoint first_occurrences (l : list string) : list string :=
  match l with
  | [] => []
  | x :: l' => x :: filter (fun y => negb (String.eqb x y)) (first_occurrences l')
  end.

(** Membership in a list of keys, as a test. *)
Definition mem (key : string) (keys : list string) : bool :=
  existsb (String.eqb key) keys.

(** The values a list of dict entries holds, absent ones skipped. *)
Definition values {A B} (entry : A -> option B) (l : list A) : list B :=
  flat_map (fun x => match entry x with Some v => [v] | None => [] end) l.

(** Whether a dict has the key. *)
Definition present {A} (entry : option A) : bool :=
  match entry with
  | Some _ => true
  | None => false
  end.

(** What the interpreter contributes to the scripts' output.  Floats are
    IEEE doubles and the wall clock is read at run time; neither is
    computed here, the scripts only pass their results to [print]. *)
Class Interp : Type := {
  float : Type;
  py_sum : list float -> float;         (* sum(xs) *)
  truediv : float -> nat -> float;      (* x / n for an int n > 0 *)
  int_truediv : nat -> nat -> float;    (* p / n for ints, n > 0 *)
  mul_int : float -> nat -> float;      (* x * n for an int n *)
  format_pct1 : float -> string;        (* format(x, '.1%') *)
  format_f0 : float -> string;          (* format(x, '.0f') *)
  now : string                          (* datetime.now().strftime(...) *)
}.

End Py.

Import Py.
Open Scope py_scope.

(** * analyze_knowledge.py *)

Module KnowledgeReport.

Section Script.

Context {I : Interp}.

(** A discovery record, as the script reads it: a dict of which only the
    keys [title], [confidence], [status] and [timestamp] are looked up.
    A key may be absent; a value that is there has the type of the data
    model (text, and a float for [confidence]). *)
Record Discovery : Type := {
  title : option string;
  confidence : option float;
  status : option string;
  timestamp : option string
}.

(** The decoded JSON object [kb], read at its one key [discoveries]. *)
Record KnowledgeBase : Type := {
  discoveries : option (list Discovery)
}.

Definition stdout : Type := list string.

Definition print (s : string) : M stdout unit :=
  fun out => (inr tt, out ++ [s]).

(** The four prints of the header. *)
Definition header : M stdout unit :=
  print rule ;;
  print "🧠 KNOWLEDGE BASE ANALYSIS" ;;
  print rule ;;
  print ("⏰ " ++ now ++ nl).

Definition total_line (n : nat) : string := "📚 Total Discoveries: " ++ str n.

Definition average_line (x : float) : string :=
  "📊 Average Confidence: " ++ format_pct1 x.

Definition breakdown_title : string := nl ++ "📈 Status Breakdown:".

Definition latest_title : string := nl ++ "🔬 Latest 5 Discoveries:".

Definition footer : string := nl ++ rule.

(** The line of one [status, count] item of the counter. *)
Definition status_line (item : string * nat) : string :=
  "   " ++ fst item ++ ": " ++ str (snd item).

(** The body of [for i, disc in enumerate(discoveries[-5:], 1)]: every
    field is looked up when its line is printed. *)
Definition print_latest (item : nat * Discovery) : M stdout unit :=
  let (i, disc) := item in
  t <- lift (getitem "title" (title disc)) ;;
  print (nl ++ "   " ++ str i ++ ". " ++ t) ;;
  c <- lift (getitem "confidence" (confidence disc)) ;;
  print ("      Confidence: " ++ format_pct1 c) ;;
  s <- lift (getitem "status" (status disc)) ;;
  print ("      Status: " ++ s) ;;
  ts <- lift (getitem "timestamp" (timestamp disc)) ;;
  print ("      Time: " ++ ts).

(** The block under [if discoveries:]. *)
Definition summarize (ds : list Discovery) : M stdout unit :=
  confidences <- lift (comprehension (fun d => getitem "confidence" (confidence d)) ds) ;;
  let avg_confidence := truediv (py_sum confidences) (length confidences) in
  print (average_line avg_confidence) ;;
  statuses <- lift (comprehension (fun d => getitem "status" (status d)) ds) ;;
  let statuses := Counter statuses in
  print breakdown_title ;;
  for_each statuses (fun item => print (status_line item)) ;;
  print latest_title ;;
  for_each (enumerate (last_slice 5 ds) 1) print_latest.

(** The script, from the decoded file on. *)
Definition report (kb : KnowledgeBase) : M stdout unit :=
  header ;;
  let ds := dict_get (discoveries kb) [] in
  print (total_line (length ds)) ;;
  (if truthy ds then summarize ds else ret tt) ;;
  print footer.

(** One run: how it ended, and everything it printed. *)
Definition run (kb : KnowledgeBase) : (exn + unit) * stdout := report kb [].

(** ** What the report is compared with *)

(** The knowledge base whose [discoveries] key holds [ds]. *)
Definition kb_of (ds : list Discovery) : KnowledgeBase :=
  {| discoveries := Some ds |}.

(** A record of the data model: all four keys are there. *)
Definition well_formed (d : Discovery) : bool :=
  present (title d) && present (confidence d) && present (status d)
  && present (timestamp d).

(** What the header prints. *)
Definition header_lines : list string :=
  [rule; "🧠 KNOWLEDGE BASE ANALYSIS"; rule; ("⏰ " ++ now ++ nl)%string].

(** The values of the [confidence] and [status] keys that are there. *)
Definition confidences_of (ds : list Discovery) : list float := values confidence ds.

Definition statuses_of (ds : list Discovery) : list string := values status ds.

(** What is printed up to and including the total, and the average line. *)
Definition opening (ds : list Discovery) : list string :=
  header_lines ++ [total_line (length ds)].

Definition average_of (ds : list Discovery) : string :=
  average_line (truediv (py_sum (confidences_of ds)) (length (confidences_of ds))).

(** What is printed from the header to the title of the latest section. *)
Definition up_to_latest (ds : list Discovery) : list string :=
  opening ds ++ [average_of ds; breakdown_title]
  ++ map status_line (Counter (statuses_of ds)) ++ [latest_title].

(** The four lines of entry [i] of the latest section, for a record that
    has its four keys. *)
Definition entry_lines (item : nat * Discovery) : list string :=
  match title (snd item), confidence (snd item), status (snd item), timestamp (snd item) with
  | Some t, Some c, Some s, Some ts =>
      [(nl ++ "   " ++ str (fst item) ++ ". " ++ t)%string;
       ("      Confidence: " ++ format_pct1 c)%string;
       ("      Status: " ++ s)%string;
       ("      Time: " ++ ts)%string]
  | _, _, _, _ => []
  end.

End Script.

End KnowledgeReport.

(** * test_medical_ai.py *)

Module SmokeTest.

Section Script.

Context {I : Interp}.

(** A decoded JSON value, as [response.json()] returns it: [None], a bool,
    an int, a float, a str, a list, or a dict (its items, distinct keys). *)
Inductive json : Type :=
| JNull
| JBool (b : bool)
| JInt (z : Z)
| JFloat (x : float)
| JStr (s : string)
| JArr (items : list json)
| JObj (members : list (string * json)).

Fixpoint lookup (key : string) (members : list (string * json)) : option json :=
  match members with
  | [] => None
  | (k, v) :: rest => if String.eqb k key then Some v else lookup key rest
  end.

(** [v[key]] for a str [key]: only a dict can be subscripted with it. *)
Definition subscript (v : json) (key : string) : exn + json :=
  match v with
  | JObj members => getitem key (lookup key members)
  | _ => inl TypeError
  end.

(** [len(v)]: defined on str, list and dict. *)
Definition py_len (v : json) : exn + nat :=
  match v with
  | JStr s => inr (String.length s)
  | JArr items => inr (List.length items)
  | JObj members => inr (List.length members)
  | _ => inl TypeError
  end.

(** [str(v)] of a decoded value and [str(e)] of an exception, as the
    interpreter renders them. *)
Class Repr : Type := {
  py_str : json -> string;
  str_exc : exn -> string
}.

Context {R : Repr}.

(** [str(z)] for an int. *)
Definition str_int (z : Z) : string := NilZero.string_of_int (Z.to_int z).

Record TestCase : Type := {
  name : string;
  text : string;
  expected : string
}.

Definition test_cases : list TestCase := [
  {| name := "Cardiac Emergency";
     text := "Severe chest pain, shortness of breath, sweating, pain radiating to jaw";
     expected := "cardiac" |};
  {| name := "Stroke Symptoms";
     text := "Sudden facial drooping, arm weakness, speech difficulty, confusion";
     expected := "neurological" |};
  {| name := "Appendicitis";
     text := "Right lower quadrant pain, nausea, vomiting, fever, rebound tenderness";
     expected := "gastrointestinal" |};
  {| name := "Pneumonia";
     text := "High fever, productive cough, chest pain on breathing, fatigue";
     expected := "respiratory" |};
  {| name := "Diabetic Emergency";
     text := "Excessive thirst, frequent urination, blurred vision, fruity breath odor";
     expected := "endocrine" |}
].

(** An entry of [results]. *)
Record TestResult : Type := {
  case : string;
  status : string
}.

Definition PASS : string := "✅ PASS".
Definition FAIL : string := "❌ FAIL".
Definition ERROR : string := "❌ ERROR".

(** What one [requests.post] call comes back with: an exception, or a
    response with its status code and its body, decoded if it is JSON. *)
Inductive reply : Type :=
| Raises (e : exn)
| Responds (status_code : Z) (body : option json).

(** The endpoint: its reply to the [i]-th request of the run (from 1),
    whose payload is [{"text": text}]. *)
Definition endpoint : Type := nat -> string -> reply.

(** [response.json()]. *)
Definition response_json (body : option json) : exn + json :=
  match body with
  | Some v => inr v
  | None => inl JSONDecodeError
  end.

(** The state of a run: what was printed, and the [results] list. *)
Record world : Type := {
  stdout : list string;
  results : list TestResult
}.

Definition print (s : string) : M world unit :=
  fun w => (inr tt, {| stdout := stdout w ++ [s]; results := results w |}).

(** [results.append(r)]. *)
Definition append (r : TestResult) : M world unit :=
  fun w => (inr tt, {| stdout := stdout w; results := results w ++ [r] |}).

Definition read_results : M world (list TestResult) :=
  fun w => (inr (results w), w).

(** The statements under [try:]. *)
Definition attempt (post : endpoint) (i : nat) (c : TestCase) : M world unit :=
  match post i (text c) with
  | Raises e => raise e
  | Responds status_code body =>
      if (status_code =? 200)%Z then
        result <- lift (response_json body) ;;
        print "   ✅ Status: Success" ;;
        analysis <- lift (subscript result "analysis") ;;
        condition <- lift (subscript analysis "condition") ;;
        print ("   🎯 Condition: " ++ py_str condition) ;;
        analysis <- lift (subscript result "analysis") ;;
        urgency <- lift (subscript analysis "urgency") ;;
        print ("   ⚠️  Urgency: " ++ py_str urgency) ;;
        analysis <- lift (subscript result "analysis") ;;
        recommendations <- lift (subscript analysis "recommendations") ;;
        n <- lift (py_len recommendations) ;;
        print ("   💊 Recommendations: " ++ str n) ;;
        append {| case := name c; status := PASS |}
      else
        print ("   ❌ Status: Failed (" ++ str_int status_code ++ ")") ;;
        append {| case := name c; status := FAIL |}
  end.

(** The [except Exception as e:] clause. *)
Definition on_exception (c : TestCase) (e : exn) : M world unit :=
  print ("   ❌ Error: " ++ str_exc e) ;;
  append {| case := name c; status := ERROR |}.

(** The body of [for i, case in enumerate(test_cases, 1)]. *)
Definition test_one (post : endpoint) (total : nat) (item : nat * TestCase) : M world unit :=
  let (i, c) := item in
  print (nl ++ "📋 Test " ++ str i ++ "/" ++ str total ++ ": " ++ name c) ;;
  print ("   Input: " ++ substring 0 60 (text c) ++ "...") ;;
  try_except (attempt post i c) (on_exception c).

(** [sum(1 for r in results if "PASS" in r['status'])]. *)
Definition count_passed (rs : list TestResult) : nat :=
  List.length (filter (fun r => contains "PASS" (status r)) rs).

(** The summary line; [passed / total] divides by the number of cases. *)
Definition summary_line (passed total : nat) : string :=
  nl ++ "✅ Passed: " ++ str passed ++ "/" ++ str total ++ " ("
     ++ format_f0 (mul_int (int_truediv passed total) 100) ++ "%)".

Definition summary (total : nat) : M world unit :=
  print (nl ++ rule) ;;
  print "📊 TEST RESULTS SUMMARY" ;;
  print rule ;;
  rs <- read_results ;;
  for_each rs (fun r => print (status r ++ " " ++ case r)) ;;
  let passed := count_passed rs in
  (if (total =? 0)%nat then raise ZeroDivisionError else ret tt) ;;
  print (summary_line passed total) ;;
  print rule.

(** The script over a list of cases. *)
Definition script (cases : list TestCase) (post : endpoint) : M world unit :=
  print rule ;;
  print "🧪 MEDICAL AI TEST SUITE" ;;
  print rule ;;
  print ("⏰ Started: " ++ now ++ nl) ;;
  for_each (enumerate cases 1) (test_one post (List.length cases)) ;;
  summary (List.length cases).

Definition start : world := {| stdout := []; results := [] |}.

(** One run over [cases], and the run of the script as it is. *)
Definition run_on (cases : list TestCase) (post : endpoint) : (exn + unit) * world :=
  script cases post start.

Definition run (post : endpoint) : (exn + unit) * world := run_on test_cases post.

(** ** What the run is compared with *)

(** A complete [analysis] object: the body is a dict whose [analysis] is a
    dict with [condition], [urgency] and [recommendations], the latter a
    sequence ([len] applies to it). *)
Definition complete (body : json) : bool :=
  match subscript body "analysis" with
  | inr analysis =>
      match subscript analysis "condition", subscript analysis "urgency",
            subscript analysis "recommendations" with
      | inr _, inr _, inr recommendations =>
          match py_len recommendations with
          | inr _ => true
          | inl _ => false
          end
      | _, _, _ => false
      end
  | inl _ => false
  end.

(** A body without the [analysis] key, or whose [analysis] dict is without
    one of its three keys: the lookup that fails, and its error. *)
Definition lacks_key (body : json) : Prop :=
  subscript body "analysis" = inl (KeyError "analysis") \/
  exists analysis,
    subscript body "analysis" = inr analysis /\
    (subscript analysis "condition" = inl (KeyError "condition") \/
     subscript analysis "urgency" = inl (KeyError "urgency") \/
     subscript analysis "recommendations" = inl (KeyError "recommendations")).

(** The three outcomes of a case, by what the request came back with. *)
Definition verdict (r : reply) : string :=
  match r with
  | Raises _ => ERROR
  | Responds status_code body =>
      if (status_code =? 200)%Z then
        match body with
        | Some b => if complete b then PASS else ERROR
        | None => ERROR
        end
      else FAIL
  end.

(** The entry a case leaves in [results]. *)
Definition result_of (post : endpoint) (item : nat * TestCase) : TestResult :=
  {| case := name (snd item);
     status := verdict (post (fst item) (text (snd item))) |}.

(** A state reached from [w] by printing [lines] and appending [rs]. *)
Definition extend (w : world) (lines : list string) (rs : list TestResult) : world :=
  {| stdout := stdout w ++ lines; results := results w ++ rs |}.

(** The number of entries of [results] whose status is PASS. *)
Definition passes (rs : list TestResult) : nat :=
  count_occ string_dec (map status rs) PASS.

End Script.

End SmokeTest.

(** * An interpreter to run the scripts on concrete inputs

    Exact rational arithmetic stands in for the doubles: enough to evaluate
    the scripts where the statements below are instantiated. *)

Module Exact.

Import QArith_base.

(** Rounding to the nearest integer, ties to even. *)
Definition round_half_even (x : Q) : Z :=
  let n := Qnum x in
  let d := Z.pos (Qden x) in
  let q := (n / d)%Z in
  let r := (n mod d)%Z in
  if (2 * r <? d)%Z then q
  else if (d <? 2 * r)%Z then (q + 1)%Z
  else if Z.even q then q else (q + 1)%Z.

Definition sign (z : Z) : string := if (z <? 0)%Z then "-" else "".

Definition digits (z : Z) : string := str (Z.to_nat (Z.abs z)).

(** [format(x, '.0f')] and [format(x, '.1%')] on exact values. *)
Definition fixed0 (x : Q) : string :=
  let n := round_half_even x in
  sign n ++ digits n.

Definition percent1 (x : Q) : string :=
  let n := round_half_even (Qmult x (inject_Z 1000)) in
  sign n ++ digits (Z.abs n / 10) ++ "." ++ digits (Z.abs n mod 10) ++ "%".

Definition interp : Interp := {|
  float := Q;
  py_sum := fun xs => fold_left Qplus xs (inject_Z 0);
  truediv := fun x n => Qdiv x (inject_Z (Z.of_nat n));
  int_truediv := fun p n => Qdiv (inject_Z (Z.of_nat p)) (inject_Z (Z.of_nat n));
  mul_int := fun x n => Qmult x (inject_Z (Z.of_nat n));
  format_pct1 := percent1;
  format_f0 := fixed0;
  now := "2024-01-01 00:00:00"
|}.

(** [str()] of a str is the str itself and of a [KeyError] the quoted key;
    the other renderings are not needed and left empty. *)
Definition repr : @SmokeTest.Repr interp := {|
  SmokeTest.py_str := fun v => match v with SmokeTest.JStr s => s | _ => "" end;
  SmokeTest.str_exc := fun e =>
    match e with
    | KeyError key => ("'" ++ key ++ "'")%string
    | RequestException msg => msg
    | _ => ""
    end
|}.

End Exact.

(** * Concrete inputs *)

Module Samples.

Import QArith_base.

#[local] Existing Instance Exact.interp.
#[local] Existing Instance Exact.repr.

(** A record of the data model, and six of them. *)
Definition record (t : string) (c : Q) (s ts : string) : KnowledgeReport.Discovery :=
  {| KnowledgeReport.title := Some t;
     KnowledgeReport.confidence := Some c;
     KnowledgeReport.status := Some s;
     KnowledgeReport.timestamp := Some ts |}.

Definition six : list KnowledgeReport.Discovery := [
  record "A" (Qmake 9 10) "verified" "2024-01-01T00:00:00";
  record "B" (Qmake 8 10) "pending" "2024-01-02T00:00:00";
  record "C" (Qmake 6 10) "verified" "2024-01-03T00:00:00";
  record "D" (Qmake 5 10) "rejected" "2024-01-04T00:00:00";
  record "E" (Qmake 7 10) "pending" "2024-01-05T00:00:00";
  record "F" (Qmake 1 1) "verified" "2024-01-06T00:00:00"
].

(** Records with one key missing. *)
Definition no_status : KnowledgeReport.Discovery :=
  {| KnowledgeReport.title := Some "A";
     KnowledgeReport.confidence := Some (Qmake 9 10);
     KnowledgeReport.status := None;
     KnowledgeReport.timestamp := Some "2024-01-01T00:00:00" |}.

Definition no_title : KnowledgeReport.Discovery :=
  {| KnowledgeReport.title := None;
     KnowledgeReport.confidence := Some (Qmake 9 10);
     KnowledgeReport.status := Some "verified";
     KnowledgeReport.timestamp := Some "2024-01-01T00:00:00" |}.

(** A body of the expected shape, and one without the [analysis] key. *)
Definition good_body : SmokeTest.json :=
  SmokeTest.JObj [
    ("analysis", SmokeTest.JObj [
       ("condition", SmokeTest.JStr "cardiac");
       ("urgency", SmokeTest.JStr "high");
       ("recommendations", SmokeTest.JArr [SmokeTest.JStr "x"; SmokeTest.JStr "y"])])].

Definition empty_body : SmokeTest.json := SmokeTest.JObj [].

(** An endpoint that answers the first request well, the second with a
    404 and refuses the others; and one that always answers 200 with a
    body without [analysis]. *)
Definition mixed : SmokeTest.endpoint :=
  fun i _ =>
    match i with
    | 1%nat => SmokeTest.Responds 200 (Some good_body)
    | 2%nat => SmokeTest.Responds 404 None
    | _ => SmokeTest.Raises (RequestException "Connection refused")
    end.

Definition without_analysis : SmokeTest.endpoint :=
  fun _ _ => SmokeTest.Responds 200 (Some empty_body).

(** The five cases with their [expected] values blanked. *)
Definition blanked : list SmokeTest.TestCase :=
  map (fun c => {| SmokeTest.name := SmokeTest.name c;
                   SmokeTest.text := SmokeTest.text c;
                   SmokeTest.expected := "" |}) SmokeTest.test_cases.

End Samples.

(** * More concrete inputs *)

Module MoreSamples.

#[local] Existing Instance Exact.interp.

(** Six records, the first of which has neither [title] nor [timestamp]. *)
Definition untitled_first : list KnowledgeReport.Discovery :=
  {| KnowledgeReport.title := None;
     KnowledgeReport.confidence := Some (QArith_base.Qmake 9 10);
     KnowledgeReport.status := Some "verified";
     KnowledgeReport.timestamp := None |}
  :: tl Samples.six.

End MoreSamples.

(** * Python floats as binary64 *)

Module Binary64.

Import PrimFloat FloatOps SpecFloat.

(** An int as a float, as [len(xs)] is in [x / len(xs)]: exact below 2^53,
    which a length always is. *)
Definition of_nat (n : nat) : float := of_uint63 (Uint63.of_Z (Z.of_nat n)).

(** [sum(xs)] by additions from left to right, starting from 0.  CPython
    from 3.12 on compensates the rounding errors of the additions; on one
    value both give that value. *)
Definition add_up (xs : list float) : float := fold_left add xs zero.

(** [n / d] rounded to the nearest integer, ties to even, for [d > 0]. *)
Definition nearest_even (n d : Z) : Z :=
  let q := (n / d)%Z in
  let r := (n mod d)%Z in
  if (2 * r <? d)%Z then q
  else if (d <? 2 * r)%Z then (q + 1)%Z
  else if Z.even q then q else (q + 1)%Z.

(** [k * m * 2^e] rounded to an integer: the magnitude of a finite float
    scaled by [k]. *)
Definition scaled (k : Z) (m : positive) (e : Z) : Z :=
  if (0 <=? e)%Z then (k * Z.pos m * 2 ^ e)%Z
  else nearest_even (k * Z.pos m) (2 ^ (- e)).

Definition minus (s : bool) : string := if s then "-" else "".

(** [format(y, '.1f')] and [format(y, '.0f')]: the decimal notation of the
    float, correctly rounded to that many places, ties to even. *)
Definition fixed1 (y : float) : string :=
  match Prim2SF y with
  | S754_zero s => minus s ++ "0.0"
  | S754_infinity s => minus s ++ "inf"
  | S754_nan => "nan"
  | S754_finite s m e =>
      let n := scaled 10 m e in
      minus s ++ str (Z.to_nat (n / 10)) ++ "." ++ str (Z.to_nat (n mod 10))
  end.

Definition fixed0 (y : float) : string :=
  match Prim2SF y with
  | S754_zero s => minus s ++ "0"
  | S754_infinity s => minus s ++ "inf"
  | S754_nan => "nan"
  | S754_finite s m e => minus s ++ str (Z.to_nat (scaled 1 m e))
  end.

(** The interpreter on binary64 floats.  [format(x, '.1%')] multiplies by
    100 and formats the product with one decimal place.  The algorithm of
    [sum] and the reading of the clock are left open. *)
Definition interp (fsum : list float -> float) (clock : string) : Interp := {|
  Py.float := float;
  py_sum := fsum;
  truediv := fun x n => div x (of_nat n);
  int_truediv := fun p n => div (of_nat p) (of_nat n);
  mul_int := fun x n => mul x (of_nat n);
  format_pct1 := fun x => (fixed1 (mul x (of_nat 100)) ++ "%")%string;
  format_f0 := fixed0;
  now := clock
|}.

(** ** What the floats are compared with: exact rationals *)





End Binary64.

(** * Concrete inputs on floats *)

Module FloatSamples.

Import PrimFloat.

#[local] Existing Instance Exact.interp.
#[local] Existing Instance Exact.repr.

Definition clock : string := "2024-01-01 00:00:00".

(** A verified record with the given confidence. *)
Definition record (c : float) :
    @KnowledgeReport.Discovery (Binary64.interp Binary64.add_up clock) :=
  @KnowledgeReport.Build_Discovery (Binary64.interp Binary64.add_up clock)
    (Some "A") (Some c) (Some "verified") (Some "2024-01-01T00:00:00").


(** A body with the three keys of [analysis], whose [recommendations] is a
    number; and the endpoint that always answers 200 with it. *)
Definition unsized_body : SmokeTest.json :=
  SmokeTest.JObj [
    ("analysis", SmokeTest.JObj [
       ("condition", SmokeTest.JStr "cardiac");
       ("urgency", SmokeTest.JStr "high");
       ("recommendations", SmokeTest.JInt 5)])].

Definition unsized : SmokeTest.endpoint :=
  fun _ _ => SmokeTest.Responds 200 (Some unsized_body).

End FloatSamples.

(** * Properties of the run-time notions *)

Module PyFacts.

Lemma bind_ok {S A B} (m : M S A) (k : A -> M S B) s a s' :
  m s = (inr a, s') -> bind m k s = k a s'.
Proof. unfold bind. intros ->. reflexivity. Qed.

Lemma bind_raised {S A B} (m : M S A) (k : A -> M S B) s e s' :
  m s = (inl e, s') -> bind m k s = (inl e, s').
Proof. unfold bind. intros ->. reflexivity. Qed.

(** A comprehension over a key every record has collects the values. *)
Lemma comprehension_present {A B} (key : string) (entry : A -> option B) l :
  forallb (fun x => present (entry x)) l = true ->
  comprehension (fun x => getitem key (entry x)) l = inr (values entry l).
Proof.
  induction l as [|x l IH]; simpl; [reflexivity|].
  intros H. apply andb_true_iff in H. destruct H as [Hx Hl].
  destruct (entry x); [|discriminate]. simpl.
  rewrite (IH Hl). reflexivity.
Qed.

(** A comprehension over a key some record lacks raises [KeyError]. *)
Lemma comprehension_absent {A B} (key : string) (entry : A -> option B) l :
  forallb (fun x => present (entry x)) l = false ->
  comprehension (fun x => getitem key (entry x)) l = inl (KeyError key).
Proof.
  induction l as [|x l IH]; simpl; [discriminate|].
  destruct (entry x); simpl; [|reflexivity].
  intros H. rewrite (IH H). reflexivity.
Qed.

Lemma values_length {A B} (entry : A -> option B) l :
  forallb (fun x => present (entry x)) l = true ->
  length (values entry l) = length l.
Proof.
  induction l as [|x l IH]; simpl; [reflexivity|].
  intros H. apply andb_true_iff in H. destruct H as [Hx Hl].
  destruct (entry x); [|discriminate]. simpl. now rewrite (IH Hl).
Qed.

Lemma present_In {A B} (entry : A -> option B) l x :
  In x l -> entry x = None -> forallb (fun x => present (entry x)) l = false.
Proof.
  intros Hin Hx. destruct (forallb _ l) eqn:E; [|reflexivity].
  rewrite forallb_forall in E. specialize (E x Hin). now rewrite Hx in E.
Qed.

(** [str(n)] is the decimal notation of [n]: read as a decimal number it
    gives [n] back. *)
Lemma str_reads_back (n : nat) :
  option_map Nat.of_uint (NilZero.uint_of_string (str n)) = Some n.
Proof.
  unfold str. rewrite NilZero.usu.
  - simpl. now rewrite DecimalNat.Unsigned.of_to.
  - rewrite <- (DecimalNat.Unsigned.of_to n) at 1.
    rewrite DecimalNat.Unsigned.to_of. apply DecimalFacts.unorm_nonnil.
Qed.

(** ** Steps of a computation *)

Lemma lift_ok_then {S A B} (a : A) (k : A -> M S B) s :
  bind (lift (inr a)) k s = k a s.
Proof. reflexivity. Qed.

Lemma lift_raised_then {S A B} (e : exn) (k : A -> M S B) s :
  bind (lift (inl e : exn + A)) k s = (inl e, s).
Proof. reflexivity. Qed.

(** ** Enumerations *)

Lemma forallb_enumerate {A} (p : A -> bool) (l : list A) : forall start,
  forallb (fun item => p (snd item)) (enumerate l start) = forallb p l.
Proof.
  unfold enumerate. induction l as [|x l IH]; intros start; simpl; [reflexivity|].
  now rewrite IH.
Qed.

Lemma enumerate_fst {A} (l : list A) start :
  map fst (enumerate l start) = seq start (length l).
Proof.
  unfold enumerate. revert start.
  induction l as [|x l IH]; intros start; simpl; [reflexivity|]. now rewrite IH.
Qed.

Lemma enumerate_snd {A} (l : list A) start : map snd (enumerate l start) = l.
Proof.
  unfold enumerate. revert start.
  induction l as [|x l IH]; intros start; simpl; [reflexivity|]. now rewrite IH.
Qed.

Lemma enumerate_length {A} (l : list A) start : length (enumerate l start) = length l.
Proof. unfold enumerate. rewrite length_combine, length_seq. lia. Qed.

Lemma nth_error_enumerate {A} (l : list A) : forall start i x,
  nth_error l i = Some x -> nth_error (enumerate l start) i = Some (start + i, x).
Proof.
  unfold enumerate. induction l as [|y l IH]; intros start [|i] x H;
    simpl in *; try discriminate.
  - inversion H. now rewrite Nat.add_0_r.
  - rewrite (IH (S start) i x H). f_equal. f_equal. lia.
Qed.

(** ** The counter *)

Example Counter_keeps_first_insertion_order :
  Counter ["verified"; "pending"; "verified"; "rejected"; "pending"; "verified"]
  = [("verified", 3); ("pending", 2); ("rejected", 1)].
Proof. reflexivity. Qed.

Example last_slice_of_seven : last_slice 5 [1; 2; 3; 4; 5; 6; 7] = [3; 4; 5; 6; 7].
Proof. reflexivity. Qed.

Example last_slice_of_two : last_slice 5 [1; 2] = [1; 2].
Proof. reflexivity. Qed.

Example contains_PASS :
  contains "PASS" "✅ PASS" = true /\ contains "PASS" "❌ FAIL" = false.
Proof. split; reflexivity. Qed.

Lemma counter_count_incr key s c :
  counter_count s (counter_incr key c)
  = counter_count s c + (if String.eqb key s then 1 else 0).
Proof.
  induction c as [|[k n] c IH]; simpl.
  - destruct (String.eqb key s); reflexivity.
  - destruct (String.eqb k key) eqn:Ek; simpl.
    + apply String.eqb_eq in Ek. subst k.
      destruct (String.eqb key s); lia.
    + destruct (String.eqb k s) eqn:Es; [|exact IH].
      apply String.eqb_eq in Es. subst k. rewrite String.eqb_sym, Ek. lia.
Qed.

Lemma counter_count_fold s l : forall c,
  counter_count s (fold_left (fun c key => counter_incr key c) l c)
  = counter_count s c + count_occ string_dec l s.
Proof.
  induction l as [|x l IH]; intros c; simpl; [lia|].
  rewrite IH, counter_count_incr.
  destruct (string_dec x s) as [->|Hne].
  - rewrite String.eqb_refl. lia.
  - apply String.eqb_neq in Hne. rewrite Hne. lia.
Qed.

(** The counter holds, for every key, the number of its occurrences. *)
Lemma counter_count_Counter s l :
  counter_count s (Counter l) = count_occ string_dec l s.
Proof. unfold Counter. now rewrite counter_count_fold. Qed.

Lemma counter_sum_incr key c :
  list_sum (map snd (counter_incr key c)) = S (list_sum (map snd c)).
Proof.
  induction c as [|[k n] c IH]; simpl; [reflexivity|].
  destruct (String.eqb k key); simpl; [reflexivity|]. rewrite IH. lia.
Qed.

Lemma counter_sum_fold l : forall c,
  list_sum (map snd (fold_left (fun c key => counter_incr key c) l c))
  = list_sum (map snd c) + length l.
Proof.
  induction l as [|x l IH]; intros c; simpl; [lia|].
  rewrite IH, counter_sum_incr. lia.
Qed.

(** The counts of a counter add up to the number of elements counted. *)
Lemma counter_sum l : list_sum (map snd (Counter l)) = length l.
Proof. unfold Counter. now rewrite counter_sum_fold. Qed.

Lemma mem_In key keys : mem key keys = true <-> In key keys.
Proof.
  unfold mem. rewrite existsb_exists. split.
  - intros [x [Hin Heq]]. apply String.eqb_eq in Heq. now subst.
  - intros Hin. exists key. split; [assumption|apply String.eqb_refl].
Qed.

Lemma counter_keys_incr key c :
  map fst (counter_incr key c)
  = if mem key (map fst c) then map fst c else map fst c ++ [key].
Proof.
  induction c as [|[k n] c IH]; simpl; [reflexivity|].
  rewrite (String.eqb_sym key k).
  destruct (String.eqb k key); simpl; [reflexivity|].
  rewrite IH. destruct (mem key (map fst c)); reflexivity.
Qed.

Lemma filter_ext_in_bool {A} (f g : A -> bool) l :
  (forall x, In x l -> f x = g x) -> filter f l = filter g l.
Proof.
  induction l as [|x l IH]; simpl; intros H; [reflexivity|].
  rewrite (H x (or_introl eq_refl)), IH; [reflexivity|].
  intros y Hy. apply H. now right.
Qed.

Lemma filter_filter {A} (f g : A -> bool) l :
  filter f (filter g l) = filter (fun x => g x && f x) l.
Proof.
  induction l as [|x l IH]; simpl; [reflexivity|].
  destruct (g x); simpl; [|exact IH].
  destruct (f x); [now rewrite IH|exact IH].
Qed.

(** Filling a counter that already has the keys [map fst c] adds the new
    keys in the order of their first occurrence. *)
Lemma counter_keys_fold l : forall c,
  map fst (fold_left (fun c key => counter_incr key c) l c)
  = map fst c ++ filter (fun y => negb (mem y (map fst c))) (first_occurrences l).
Proof.
  induction l as [|x l IH]; intros c; simpl.
  - now rewrite app_nil_r.
  - rewrite IH, counter_keys_incr. destruct (mem x (map fst c)) eqn:Ex; simpl.
    + f_equal. rewrite filter_filter. apply filter_ext_in_bool. intros y _.
      destruct (String.eqb x y) eqn:Exy; simpl; [|reflexivity].
      apply String.eqb_eq in Exy. subst y. now rewrite Ex.
    + rewrite <- app_assoc. simpl. f_equal. f_equal.
      rewrite filter_filter. apply filter_ext_in_bool. intros y _.
      unfold mem. rewrite existsb_app. simpl. rewrite orb_false_r, negb_orb.
      rewrite (String.eqb_sym y x). apply andb_comm.
Qed.

(** The keys of a counter are the distinct elements, in the order of their
    first occurrence. *)
Lemma counter_keys l : map fst (Counter l) = first_occurrences l.
Proof.
  unfold Counter. rewrite counter_keys_fold. simpl.
  induction (first_occurrences l) as [|y r IH]; simpl; [reflexivity|].
  now rewrite IH.
Qed.

Lemma first_occurrences_In s l : In s (first_occurrences l) <-> In s l.
Proof.
  induction l as [|x l IH]; simpl; [tauto|].
  rewrite filter_In, IH. split.
  - intros [H|[H _]]; [now left|now right].
  - intros [H|H]; [now left|].
    destruct (string_dec x s) as [E|E]; [now left|right].
    split; [assumption|]. apply String.eqb_neq in E. now rewrite E.
Qed.

Lemma first_occurrences_NoDup l : NoDup (first_occurrences l).
Proof.
  induction l as [|x l IH]; simpl; constructor.
  - rewrite filter_In. intros [_ H]. now rewrite String.eqb_refl in H.
  - now apply NoDup_filter.
Qed.

Lemma counter_count_In s n c :
  NoDup (map fst c) -> In (s, n) c -> counter_count s c = n.
Proof.
  induction c as [|[k m] c IH]; simpl; intros Hnd Hin; [contradiction|].
  inversion Hnd as [|? ? Hk Hc]; subst.
  destruct Hin as [E|Hin].
  - inversion E; subst. now rewrite String.eqb_refl.
  - destruct (String.eqb k s) eqn:Ek; [|now apply IH].
    apply String.eqb_eq in Ek. subst k. exfalso. apply Hk.
    change s with (fst (s, n)). now apply in_map.
Qed.

End PyFacts.

(** * Properties of the knowledge report *)

Module ReportFacts.

Import PyFacts KnowledgeReport.

Section Facts.

Context {I : Interp}.

(** ** Printing only appends to standard output *)

Lemma print_then {A} (x : string) (k : unit -> M stdout A) out :
  bind (print x) k out = k tt (out ++ [x]).
Proof. reflexivity. Qed.

Lemma header_prints out : header out = (inr tt, out ++ header_lines).
Proof.
  unfold header, header_lines. rewrite !print_then. unfold print.
  now rewrite <- !app_assoc.
Qed.

Lemma for_each_print {A} (line : A -> string) l : forall out,
  for_each l (fun x => print (line x)) out = (inr tt, out ++ map line l).
Proof.
  induction l as [|x l IH]; intros out; simpl.
  - unfold ret. now rewrite app_nil_r.
  - rewrite print_then, IH, <- app_assoc. reflexivity.
Qed.

(** An entry whose record has its four keys prints its four lines. *)
Lemma print_latest_ok i d out :
  well_formed d = true ->
  print_latest (i, d) out = (inr tt, out ++ entry_lines (i, d)).
Proof.
  unfold well_formed, print_latest, entry_lines. simpl.
  destruct (title d), (confidence d), (status d), (timestamp d); try discriminate.
  intros _. simpl getitem.
  rewrite lift_ok_then, print_then, lift_ok_then, print_then,
    lift_ok_then, print_then, lift_ok_then.
  unfold print. now rewrite <- !app_assoc.
Qed.

Lemma for_each_latest_ok items : forall out,
  forallb (fun item => well_formed (snd item)) items = true ->
  for_each items print_latest out = (inr tt, out ++ flat_map entry_lines items).
Proof.
  induction items as [|[i d] items IH]; intros out H; simpl.
  - unfold ret. now rewrite app_nil_r.
  - simpl in H. apply andb_true_iff in H. destruct H as [Hd Hrest].
    erewrite bind_ok by (apply print_latest_ok; exact Hd).
    rewrite IH by exact Hrest. now rewrite <- app_assoc.
Qed.

(** Whatever happens in the latest section, what was printed before it
    stays. *)
Lemma print_latest_extends item out :
  exists r extra, print_latest item out = (r, out ++ extra).
Proof.
  destruct item as [i d]. unfold print_latest.
  destruct (title d) as [t|]; simpl getitem;
    [rewrite lift_ok_then, print_then
    |rewrite lift_raised_then; exists (inl (KeyError "title")), []; now rewrite app_nil_r].
  destruct (confidence d) as [c|]; simpl getitem;
    [rewrite lift_ok_then, print_then
    |rewrite lift_raised_then; eexists _, [_]; reflexivity].
  destruct (status d) as [s|]; simpl getitem;
    [rewrite lift_ok_then, print_then
    |rewrite lift_raised_then; eexists _, [_; _]; now rewrite <- !app_assoc].
  destruct (timestamp d) as [ts|]; simpl getitem;
    [rewrite lift_ok_then
    |rewrite lift_raised_then; eexists _, [_; _; _]; now rewrite <- !app_assoc].
  unfold print. eexists _, [_; _; _; _]. now rewrite <- !app_assoc.
Qed.

Lemma for_each_latest_extends items : forall out,
  exists r extra, for_each items print_latest out = (r, out ++ extra).
Proof.
  induction items as [|item items IH]; intros out; simpl.
  - exists (inr tt), []. unfold ret. now rewrite app_nil_r.
  - destruct (print_latest_extends item out) as [r [extra E]].
    destruct r as [e|[]].
    + exists (inl e), extra. now apply bind_raised.
    + erewrite bind_ok by exact E.
      destruct (IH (out ++ extra)) as [r' [extra' E']].
      exists r', (extra ++ extra'). now rewrite E', <- app_assoc.
Qed.

(** An entry whose record lacks [title] or [timestamp], but has
    [confidence] and [status], raises the lookup error of that key. *)
Lemma print_latest_raises i d out :
  present (confidence d) && present (status d) = true ->
  well_formed d = false ->
  exists key extra,
    (key = "title" \/ key = "timestamp") /\
    print_latest (i, d) out = (inl (KeyError key), out ++ extra).
Proof.
  intros Hd Ewf. unfold well_formed in Ewf. unfold print_latest.
  apply andb_true_iff in Hd. destruct Hd as [Hc Hs].
  destruct (confidence d) as [c|]; [|discriminate].
  destruct (status d) as [s|]; [|discriminate].
  destruct (title d) as [t|]; simpl getitem.
  - destruct (timestamp d) as [ts|]; [discriminate|]. simpl getitem.
    rewrite lift_ok_then, print_then, lift_ok_then, print_then,
      lift_ok_then, print_then, lift_raised_then.
    exists "timestamp". eexists [_; _; _]. split; [now right|].
    now rewrite <- !app_assoc.
  - rewrite lift_raised_then. exists "title", []. split; [now left|].
    now rewrite app_nil_r.
Qed.

(** So does the latest section over a list whose records all have
    [confidence] and [status], when one of them lacks another key. *)
Lemma for_each_latest_raises items : forall out,
  forallb (fun item => present (confidence (snd item)) && present (status (snd item))) items = true ->
  forallb (fun item => well_formed (snd item)) items = false ->
  exists key extra,
    (key = "title" \/ key = "timestamp") /\
    for_each items print_latest out = (inl (KeyError key), out ++ extra).
Proof.
  induction items as [|[i d] items IH]; intros out Hcs Hwf; simpl in *;
    [discriminate|].
  apply andb_true_iff in Hcs. destruct Hcs as [Hd Hcs].
  destruct (well_formed d) eqn:Ewf.
  - erewrite bind_ok by (apply print_latest_ok; exact Ewf).
    destruct (IH (out ++ entry_lines (i, d)) Hcs Hwf) as [key [extra [Hk E]]].
    exists key, (entry_lines (i, d) ++ extra). split; [exact Hk|].
    now rewrite E, <- app_assoc.
  - destruct (print_latest_raises i d out Hd Ewf) as [key [extra [Hk E]]].
    exists key, extra. split; [exact Hk|]. now apply bind_raised.
Qed.

Lemma forallb_skipn {A} (p : A -> bool) (l : list A) : forall k,
  forallb p l = true -> forallb p (skipn k l) = true.
Proof.
  induction l as [|x l IH]; intros [|k] H; simpl; try assumption; try reflexivity.
  simpl in H. apply andb_true_iff in H. apply IH. tauto.
Qed.

(** ** The run, step by step *)

(** A non-empty list enters the block under [if discoveries:]. *)
Lemma run_nonempty ds :
  ds <> [] ->
  run (kb_of ds) = bind (summarize ds) (fun _ => print footer) (opening ds).
Proof.
  intros Hne. unfold run, report, kb_of, opening. simpl dict_get.
  erewrite bind_ok by apply header_prints. rewrite print_then.
  destruct ds as [|d ds]; [contradiction|]. reflexivity.
Qed.

(** The run stops in the averaging step when a [confidence] is missing. *)
Lemma run_no_confidence ds :
  forallb (fun d => present (confidence d)) ds = false ->
  run (kb_of ds) = (inl (KeyError "confidence"), opening ds).
Proof.
  intros H. rewrite run_nonempty by (intros ->; discriminate).
  apply bind_raised. unfold summarize.
  now rewrite (comprehension_absent "confidence" confidence ds H).
Qed.

(** With every [confidence] there, the average is printed, and the run
    stops in the counting step when a [status] is missing. *)
Lemma run_no_status ds :
  forallb (fun d => present (confidence d)) ds = true ->
  forallb (fun d => present (status d)) ds = false ->
  run (kb_of ds) = (inl (KeyError "status"), opening ds ++ [average_of ds]).
Proof.
  intros Hc Hs. rewrite run_nonempty by (intros ->; discriminate).
  apply bind_raised. unfold summarize.
  rewrite (comprehension_present "confidence" confidence ds Hc).
  rewrite lift_ok_then, print_then.
  now rewrite (comprehension_absent "status" status ds Hs).
Qed.

(** With every [confidence] and [status] there, the run reaches the latest
    section. *)
Lemma summarize_reaches_latest ds out :
  forallb (fun d => present (confidence d)) ds = true ->
  forallb (fun d => present (status d)) ds = true ->
  summarize ds out
  = for_each (enumerate (last_slice 5 ds) 1) print_latest
      (out ++ [average_of ds; breakdown_title]
           ++ map status_line (Counter (statuses_of ds)) ++ [latest_title]).
Proof.
  intros Hc Hs. unfold summarize.
  rewrite (comprehension_present "confidence" confidence ds Hc).
  rewrite lift_ok_then, print_then.
  rewrite (comprehension_present "status" status ds Hs).
  rewrite lift_ok_then, print_then.
  erewrite bind_ok by apply for_each_print.
  rewrite print_then. f_equal. rewrite <- !app_assoc. reflexivity.
Qed.

Lemma run_reaches_latest ds :
  ds <> [] ->
  forallb (fun d => present (confidence d)) ds = true ->
  forallb (fun d => present (status d)) ds = true ->
  run (kb_of ds)
  = bind (for_each (enumerate (last_slice 5 ds) 1) print_latest)
      (fun _ => print footer) (up_to_latest ds).
Proof.
  intros Hne Hc Hs. rewrite run_nonempty by exact Hne.
  unfold bind at 1. rewrite (summarize_reaches_latest ds (opening ds) Hc Hs).
  reflexivity.
Qed.

Lemma well_formed_fields ds :
  forallb well_formed ds = true ->
  forallb (fun d => present (confidence d)) ds = true /\
  forallb (fun d => present (status d)) ds = true.
Proof.
  intros H. rewrite !forallb_forall in *. unfold well_formed in H.
  split; intros d Hd; specialize (H d Hd);
    repeat (apply andb_true_iff in H; destruct H as [H ?]); assumption.
Qed.

(** ** The claims *)

(** C7. For a discoveries list of length 0 the report prints the header,
    a total of 0 and the footer, and ends normally: no average-confidence
    line, no status breakdown and no latest-discoveries section. *)
Theorem report_empty :
  run (kb_of []) = (inr tt, header_lines ++ ["📚 Total Discoveries: 0"; footer]) /\
  (forall x, ~ In (average_line x) (snd (run (kb_of [])))) /\
  ~ In breakdown_title (snd (run (kb_of []))) /\
  ~ In latest_title (snd (run (kb_of []))).
Proof.
  split; [reflexivity|].
  repeat split; intros; intros H; cbn in H;
    repeat (destruct H as [H|H]; [discriminate H|]); exact H.
Qed.

(** C10. When the decoded top-level object has no [discoveries] key, the
    script does not fail: [kb.get] substitutes the empty list, the total
    printed is 0, the block of the per-record sections is skipped and the
    run ends normally, exactly as on an empty list. *)
Theorem report_without_discoveries_key :
  dict_get (discoveries {| discoveries := None |}) [] = [] /\
  run {| discoveries := None |}
  = (inr tt, header_lines ++ ["📚 Total Discoveries: 0"; footer]) /\
  run {| discoveries := None |} = run (kb_of []).
Proof. repeat split. Qed.

(** C5. For a non-empty discoveries list (records with their [confidence]
    and [status]), the status breakdown is printed right after the average:
    its title, then one line per item of the counter, which shows three
    blanks, the status, a colon and a blank, and the count in decimal
    notation; the title of the latest section follows.  The counter has one
    item per distinct status, in the order of the first occurrences, each
    with the number of occurrences of its status, and the counts add up to
    the number of discoveries. *)
Theorem status_breakdown (ds : list Discovery) :
  ds <> [] ->
  forallb (fun d => present (confidence d)) ds = true ->
  forallb (fun d => present (status d)) ds = true ->
  let statuses := Counter (statuses_of ds) in
  map status ds = map Some (statuses_of ds) /\
  (exists rest,
     snd (run (kb_of ds))
     = opening ds
       ++ [average_of ds; (nl ++ "📈 Status Breakdown:")%string]
       ++ map (fun item => ("   " ++ fst item ++ ": " ++ str (snd item))%string) statuses
       ++ (nl ++ "🔬 Latest 5 Discoveries:")%string :: rest) /\
  (forall n, option_map Nat.of_uint (NilZero.uint_of_string (str n)) = Some n) /\
  map fst statuses = first_occurrences (statuses_of ds) /\
  NoDup (map fst statuses) /\
  (forall s, In s (map fst statuses) <-> In s (statuses_of ds)) /\
  (forall s n, In (s, n) statuses -> n = count_occ string_dec (statuses_of ds) s) /\
  list_sum (map snd statuses) = length ds.
Proof.
  intros Hne Hc Hs statuses. subst statuses.
  assert (Hkeys := counter_keys (statuses_of ds)).
  assert (Hnd : NoDup (map fst (Counter (statuses_of ds))))
    by (rewrite Hkeys; apply first_occurrences_NoDup).
  split; [|split; [|split; [|split; [|split; [|split; [|split]]]]]].
  - clear Hne Hc Hkeys Hnd. unfold statuses_of, values.
    induction ds as [|d ds IH]; simpl in *; [reflexivity|].
    apply andb_true_iff in Hs. destruct Hs as [Hd Hs].
    destruct (status d); [|discriminate]. simpl. now rewrite (IH Hs).
  - rewrite (run_reaches_latest ds Hne Hc Hs).
    destruct (for_each_latest_extends (enumerate (last_slice 5 ds) 1) (up_to_latest ds))
      as [r [extra E]].
    destruct r as [e|[]].
    + exists extra. erewrite bind_raised by exact E.
      unfold up_to_latest. cbn [snd]. rewrite <- ?app_assoc. reflexivity.
    + exists (extra ++ [footer]). erewrite bind_ok by exact E.
      unfold print, up_to_latest. cbn [snd]. rewrite <- ?app_assoc. reflexivity.
  - exact str_reads_back.
  - exact Hkeys.
  - exact Hnd.
  - intros s. rewrite Hkeys. apply first_occurrences_In.
  - intros s n Hin. rewrite <- (counter_count_Counter s (statuses_of ds)).
    symmetry. now apply counter_count_In.
  - rewrite counter_sum. unfold statuses_of. now apply values_length.
Qed.

(** C6. For a discoveries list of length N >= 1 (records of the data
    model), the latest section prints exactly min(N, 5) entries of four
    lines each: the last min(N, 5) records of the list, in their order in
    the list, numbered from 1 to min(N, 5); then the footer ends the run. *)
Theorem latest_section (ds : list Discovery) :
  ds <> [] ->
  forallb well_formed ds = true ->
  let n := Nat.min (length ds) 5 in
  let shown := skipn (length ds - n) ds in
  length shown = n /\
  firstn (length ds - n) ds ++ shown = ds /\
  map fst (enumerate shown 1) = seq 1 n /\
  map snd (enumerate shown 1) = shown /\
  Forall (fun item => length (entry_lines item) = 4) (enumerate shown 1) /\
  run (kb_of ds)
  = (inr tt, up_to_latest ds ++ flat_map entry_lines (enumerate shown 1) ++ [footer]).
Proof.
  intros Hne Hwf n shown.
  assert (Hshown : shown = last_slice 5 ds).
  { subst shown n. unfold last_slice. f_equal. lia. }
  assert (Hlen : length shown = n).
  { subst shown. rewrite length_skipn. subst n. lia. }
  assert (Hwf' : forallb well_formed shown = true)
    by (subst shown; now apply forallb_skipn).
  split; [exact Hlen|]. split; [apply firstn_skipn|].
  split; [now rewrite enumerate_fst, Hlen|]. split; [apply enumerate_snd|].
  split.
  - apply Forall_forall. intros [i d] Hin.
    assert (Hd : well_formed d = true).
    { rewrite forallb_forall in Hwf'. apply Hwf'.
      rewrite <- (enumerate_snd shown 1). change d with (snd (i, d)).
      now apply in_map. }
    unfold well_formed in Hd. unfold entry_lines. simpl.
    destruct (title d), (confidence d), (status d), (timestamp d);
      try discriminate; reflexivity.
  - destruct (well_formed_fields ds Hwf) as [Hc Hs].
    rewrite (run_reaches_latest ds Hne Hc Hs), <- Hshown.
    erewrite bind_ok
      by (apply for_each_latest_ok; rewrite forallb_enumerate; exact Hwf').
    unfold print. now rewrite <- app_assoc.
Qed.

(** C9, as the script has it.  A missing key ends the run with a lookup
    error at the first step that reads it:
    - a record without [confidence] stops the averaging step, right after
      the total;
    - when every record has its [confidence], a record without [status]
      stops the counting step, right after the average;
    - when every record has both, a record among the last 5 without [title]
      or [timestamp] stops the latest section, after its title was printed.
    In all, a record among the last 5 that lacks one of the four keys makes
    the run end with a lookup error. *)
Theorem missing_key_aborts (ds : list Discovery) (d : Discovery) :
  In d ds ->
  (confidence d = None ->
   run (kb_of ds) = (inl (KeyError "confidence"), opening ds)) /\
  (forallb (fun d => present (confidence d)) ds = true ->
   status d = None ->
   run (kb_of ds) = (inl (KeyError "status"), opening ds ++ [average_of ds])) /\
  (forallb (fun d => present (confidence d)) ds = true ->
   forallb (fun d => present (status d)) ds = true ->
   In d (last_slice 5 ds) ->
   title d = None \/ timestamp d = None ->
   exists key extra,
     (key = "title" \/ key = "timestamp") /\
     run (kb_of ds) = (inl (KeyError key), up_to_latest ds ++ extra)) /\
  (In d (last_slice 5 ds) ->
   well_formed d = false ->
   exists key out, run (kb_of ds) = (inl (KeyError key), out)).
Proof.
  intros Hin.
  assert (Hne : ds <> []) by (intros ->; contradiction).
  assert (H1 : confidence d = None ->
               run (kb_of ds) = (inl (KeyError "confidence"), opening ds)).
  { intros Hd. apply run_no_confidence.
    exact (present_In confidence ds d Hin Hd). }
  assert (H2 : forallb (fun d => present (confidence d)) ds = true ->
               status d = None ->
               run (kb_of ds) = (inl (KeyError "status"), opening ds ++ [average_of ds])).
  { intros Hc Hd. apply run_no_status; [exact Hc|].
    exact (present_In status ds d Hin Hd). }
  assert (H3 : forallb (fun d => present (confidence d)) ds = true ->
               forallb (fun d => present (status d)) ds = true ->
               In d (last_slice 5 ds) ->
               well_formed d = false ->
               exists key extra,
                 (key = "title" \/ key = "timestamp") /\
                 run (kb_of ds) = (inl (KeyError key), up_to_latest ds ++ extra)).
  { intros Hc Hs Hlast Hd.
    rewrite (run_reaches_latest ds Hne Hc Hs).
    destruct (for_each_latest_raises (enumerate (last_slice 5 ds) 1) (up_to_latest ds))
      as [key [extra [Hk E]]].
    - rewrite (forallb_enumerate
                 (fun d => present (confidence d) && present (status d))).
      unfold last_slice. apply forallb_skipn.
      rewrite forallb_forall in *. intros x Hx.
      now rewrite (Hc x Hx), (Hs x Hx).
    - rewrite forallb_enumerate.
      destruct (forallb well_formed (last_slice 5 ds)) eqn:E; [|reflexivity].
      rewrite forallb_forall in E. now rewrite (E d Hlast) in Hd.
    - exists key, extra. split; [exact Hk|]. now apply bind_raised. }
  split; [exact H1|]. split; [exact H2|]. split.
  - intros Hc Hs Hlast Hd. apply (H3 Hc Hs Hlast).
    unfold well_formed. destruct Hd as [-> | ->]; simpl;
      [reflexivity|now rewrite !andb_false_r].
  - intros Hlast Hd.
    destruct (forallb (fun d => present (confidence d)) ds) eqn:Hc.
    + destruct (forallb (fun d => present (status d)) ds) eqn:Hs.
      * destruct (H3 eq_refl eq_refl Hlast Hd) as [key [extra [_ E]]].
        now exists key, (up_to_latest ds ++ extra).
      * exists "status", (opening ds ++ [average_of ds]).
        now apply run_no_status.
    + exists "confidence", (opening ds). now apply run_no_confidence.
Qed.

End Facts.

End ReportFacts.

(** * Properties of the smoke test *)

Module SmokeFacts.

Import PyFacts SmokeTest.

Section Facts.

Context {I : Interp} {R : Repr}.

Lemma extend_nil w : extend w [] [] = w.
Proof. destruct w. unfold extend. simpl. now rewrite !app_nil_r. Qed.

Lemma extend_extend w l1 r1 l2 r2 :
  extend (extend w l1 r1) l2 r2 = extend w (l1 ++ l2) (r1 ++ r2).
Proof. unfold extend. simpl. now rewrite !app_assoc. Qed.

Lemma print_extends {A} (x : string) (k : unit -> M world A) w :
  bind (print x) k w = k tt (extend w [x] []).
Proof. unfold bind, print, extend. now rewrite app_nil_r. Qed.

Lemma append_then {A} (r : TestResult) (k : unit -> M world A) w :
  bind (append r) k w = k tt (extend w [] [r]).
Proof. unfold bind, append, extend. now rewrite app_nil_r. Qed.

Lemma print_last (x : string) w : print x w = (inr tt, extend w [x] []).
Proof. unfold print, extend. now rewrite app_nil_r. Qed.

Lemma append_last (r : TestResult) w : append r w = (inr tt, extend w [] [r]).
Proof. unfold append, extend. now rewrite app_nil_r. Qed.

(** The handler records ERROR. *)
Lemma on_exception_records c e w :
  on_exception c e w
  = (inr tt, extend w [("   ❌ Error: " ++ str_exc e)%string]
                      [{| case := name c; status := ERROR |}]).
Proof.
  unfold on_exception. rewrite print_extends, append_last, extend_extend.
  reflexivity.
Qed.

(** ** One case *)

(** The statements under [try:] either end normally, with the case
    recorded as PASS or FAIL, or raise before recording anything; they
    raise exactly when the verdict on the reply is ERROR. *)
Lemma attempt_outcome post i c w :
  exists lines,
    (attempt post i c w
     = (inr tt, extend w lines
                  [{| case := name c; status := verdict (post i (text c)) |}])
     /\ verdict (post i (text c)) <> ERROR)
    \/
    (exists e, attempt post i c w = (inl e, extend w lines [])
     /\ verdict (post i (text c)) = ERROR).
Proof.
  unfold attempt, verdict.
  destruct (post i (text c)) as [e|code body].
  { exists []. right. exists e. now rewrite extend_nil. }
  destruct (code =? 200)%Z.
  2:{ eexists. left. rewrite print_extends, append_last, extend_extend.
      split; [reflexivity|discriminate]. }
  destruct body as [b|]; simpl response_json.
  2:{ exists []. right. exists JSONDecodeError.
      rewrite lift_raised_then, extend_nil. now split. }
  rewrite lift_ok_then, print_extends. unfold complete.
  destruct (subscript b "analysis") as [e|a].
  { eexists. right. exists e. rewrite lift_raised_then. now split. }
  rewrite lift_ok_then.
  destruct (subscript a "condition") as [e|cnd].
  { eexists. right. exists e. rewrite lift_raised_then. now split. }
  rewrite lift_ok_then, print_extends, extend_extend, lift_ok_then.
  destruct (subscript a "urgency") as [e|urg].
  { eexists. right. exists e. rewrite lift_raised_then. now split. }
  rewrite lift_ok_then, print_extends, extend_extend, lift_ok_then.
  destruct (subscript a "recommendations") as [e|recs].
  { eexists. right. exists e. rewrite lift_raised_then. now split. }
  rewrite lift_ok_then.
  destruct (py_len recs) as [e|n].
  { eexists. right. exists e. rewrite lift_raised_then. now split. }
  rewrite lift_ok_then, print_extends, extend_extend, append_last, extend_extend.
  eexists. left. split; [reflexivity|discriminate].
Qed.

(** Whatever the request comes back with, the body of the loop ends
    normally and leaves exactly one entry in [results]: the name of the
    case with the verdict on the reply. *)
Lemma test_one_records post total item w :
  exists lines,
    test_one post total item w = (inr tt, extend w lines [result_of post item]).
Proof.
  destruct item as [i c]. unfold test_one, result_of. simpl fst. simpl snd.
  rewrite !print_extends, extend_extend. unfold try_except.
  match goal with |- context [attempt post i c ?w0] =>
    destruct (attempt_outcome post i c w0) as [lines [[E _]|[e [E V]]]]
  end; rewrite E.
  - eexists. rewrite extend_extend. reflexivity.
  - eexists. rewrite on_exception_records, !extend_extend, V. reflexivity.
Qed.

(** ** The loop *)

Lemma loop_records post total items : forall w,
  exists lines,
    for_each items (test_one post total) w
    = (inr tt, extend w lines (map (result_of post) items)).
Proof.
  induction items as [|item items IH]; intros w; simpl.
  - exists []. unfold ret. now rewrite extend_nil.
  - destruct (test_one_records post total item w) as [l1 E1].
    erewrite bind_ok by exact E1.
    destruct (IH (extend w l1 [result_of post item])) as [l2 E2].
    exists (l1 ++ l2). now rewrite E2, extend_extend.
Qed.

(** ** The summary and the whole run *)

Lemma verdict_cases r : verdict r = PASS \/ verdict r = FAIL \/ verdict r = ERROR.
Proof.
  unfold verdict. destruct r as [e|code body]; [tauto|].
  destruct (code =? 200)%Z; [|tauto].
  destruct body as [b|]; [|tauto]. destruct (complete b); tauto.
Qed.

(** On the entries the loop leaves, ["PASS" in status] picks the PASS ones. *)
Lemma count_passed_exact rs :
  (forall r, In r rs ->
     contains "PASS" (status r) = if string_dec (status r) PASS then true else false) ->
  count_passed rs = passes rs.
Proof.
  unfold count_passed, passes.
  induction rs as [|r rs IH]; intros H; [reflexivity|].
  cbn [map filter count_occ]. rewrite (H r (or_introl eq_refl)).
  destruct (string_dec (status r) PASS); cbn [length];
    rewrite IH; try reflexivity; intros r' Hr'; apply H; now right.
Qed.

Lemma count_passed_passes post items :
  count_passed (map (result_of post) items) = passes (map (result_of post) items).
Proof.
  apply count_passed_exact. intros r Hr.
  apply in_map_iff in Hr. destruct Hr as [item [<- _]].
  unfold result_of. cbn [status].
  destruct (verdict_cases (post (fst item) (text (snd item)))) as [E|[E|E]];
    rewrite E; vm_compute; reflexivity.
Qed.

Lemma summary_prints total w :
  total <> 0 ->
  summary total w
  = (inr tt,
     extend w ([(nl ++ rule)%string; "📊 TEST RESULTS SUMMARY"; rule]
               ++ map (fun r => (status r ++ " " ++ case r)%string) (results w)
               ++ [summary_line (count_passed (results w)) total; rule]) []).
Proof.
  intros Hne. unfold summary. rewrite !print_extends, !extend_extend.
  unfold read_results at 1. unfold bind at 1.
  cbn [results extend]. rewrite app_nil_r.
  assert (Hloop : forall rs w0,
            for_each rs (fun r => print (status r ++ " " ++ case r)) w0
            = (inr tt, extend w0 (map (fun r => (status r ++ " " ++ case r)%string) rs) [])).
  { clear. induction rs as [|r rs IH]; intros w0; simpl.
    - unfold ret. now rewrite extend_nil.
    - rewrite print_extends, IH, extend_extend. reflexivity. }
  erewrite bind_ok by apply Hloop.
  apply Nat.eqb_neq in Hne. rewrite Hne.
  unfold bind at 1, ret at 1.
  rewrite print_extends, print_last, !extend_extend. cbn [app].
  rewrite <- ?app_assoc. reflexivity.
Qed.

(** A run over at least one case ends normally, with one entry per case
    in [results], and its last two prints are the summary line and a rule. *)
Lemma run_on_prints cases post :
  cases <> [] ->
  exists before,
    run_on cases post
    = (inr tt,
       {| stdout := before
            ++ [summary_line (passes (map (result_of post) (enumerate cases 1)))
                  (length cases); rule];
          results := map (result_of post) (enumerate cases 1) |}).
Proof.
  intros Hne. unfold run_on, script. rewrite !print_extends, !extend_extend.
  match goal with |- context [bind (for_each ?items _) _ ?w0] =>
    destruct (loop_records post (length cases) items w0) as [lines E]
  end.
  erewrite bind_ok by exact E.
  rewrite summary_prints by (destruct cases; [contradiction|discriminate]).
  rewrite !extend_extend. unfold extend, start. cbn [stdout results app].
  rewrite count_passed_passes, app_nil_r.
  eexists (_ :: _ :: _ :: _ :: lines ++ _ :: _ :: _ :: map _ _).
  cbn [app]. rewrite <- app_assoc. cbn [app]. reflexivity.
Qed.

Lemma results_of_run post :
  fst (run post) = inr tt /\
  results (snd (run post)) = map (result_of post) (enumerate test_cases 1).
Proof.
  unfold run.
  destruct (run_on_prints test_cases post) as [before E]; [discriminate|].
  rewrite E. split; reflexivity.
Qed.

(** The entry of the case at position [i] of the list (from 0), which is
    the [i + 1]-th request of the run. *)
Lemma recorded_at post i c :
  nth_error test_cases i = Some c ->
  nth_error (results (snd (run post))) i
  = Some {| case := name c; status := verdict (post (S i) (text c)) |}.
Proof.
  intros Hc. destruct (results_of_run post) as [_ ->].
  apply (nth_error_enumerate test_cases 1) in Hc.
  now rewrite (map_nth_error (result_of post) i _ Hc).
Qed.

Lemma subscript_dict_error members key e :
  subscript (JObj members) key = inl e -> e = KeyError key.
Proof.
  unfold subscript, getitem. destruct (lookup key members); [discriminate|].
  now intros [= <-].
Qed.

Lemma lacks_key_incomplete body : lacks_key body -> complete body = false.
Proof.
  unfold complete. intros [E|[a [E [Ec|[Eu|Er]]]]]; rewrite E; [reflexivity|..].
  - now rewrite Ec.
  - rewrite Eu. now destruct (subscript a "condition").
  - rewrite Er.
    now destruct (subscript a "condition"), (subscript a "urgency").
Qed.

(** ** The claims *)

(** C1, as the script has it.  The lookups are inside the [try] block, so
    when a request comes back with status 200 and a JSON body without the
    [analysis] key (or without a key of [analysis]), the lookup error is
    caught by the [except] clause of that case: the case is recorded as
    ERROR, and the run goes on to the end with its five entries. *)
Theorem missing_key_is_caught (post : endpoint) (i : nat) (c : TestCase) (body : json) :
  nth_error test_cases i = Some c ->
  post (S i) (text c) = Responds 200 (Some body) ->
  lacks_key body ->
  (forall w, exists key w', attempt post (S i) c w = (inl (KeyError key), w')) /\
  fst (run post) = inr tt /\
  length (results (snd (run post))) = 5 /\
  nth_error (results (snd (run post))) i
  = Some {| case := name c; status := ERROR |}.
Proof.
  intros Hc Hpost Hlacks. split; [|split; [|split]].
  - intros w. unfold attempt. rewrite Hpost. cbn [Z.eqb Pos.eqb response_json].
    rewrite lift_ok_then, print_extends.
    destruct Hlacks as [E|[a [E Hsub]]]; rewrite E.
    { rewrite lift_raised_then. now eexists _, _. }
    rewrite lift_ok_then.
    assert (Ha : exists members, a = JObj members).
    { destruct a; try (destruct Hsub as [H|[H|H]]; discriminate H).
      now eexists. }
    destruct Ha as [members ->].
    destruct (subscript (JObj members) "condition") as [e|cnd] eqn:Ec.
    { apply subscript_dict_error in Ec. subst e.
      rewrite lift_raised_then. now eexists _, _. }
    rewrite lift_ok_then, print_extends, lift_ok_then.
    destruct (subscript (JObj members) "urgency") as [e|urg] eqn:Eu.
    { apply subscript_dict_error in Eu. subst e.
      rewrite lift_raised_then. now eexists _, _. }
    rewrite lift_ok_then, print_extends, lift_ok_then.
    destruct Hsub as [H|[H|H]]; try discriminate H.
    rewrite H, lift_raised_then. now eexists _, _.
  - apply results_of_run.
  - destruct (results_of_run post) as [_ ->].
    now rewrite length_map, enumerate_length.
  - rewrite (recorded_at post i c Hc). unfold verdict. rewrite Hpost.
    cbn [Z.eqb Pos.eqb]. now rewrite (lacks_key_incomplete body Hlacks).
Qed.

(** C2, as the script has it.  For every test case: when the request
    raises (refused, timed out, ...) the case is recorded as ERROR; when a
    response arrives with a status code other than 200 it is recorded as
    FAIL; when a response arrives with status 200 and a complete [analysis]
    object, that is with the three keys present and a [recommendations]
    value that [len] applies to, it is recorded as PASS. *)
Theorem case_status (post : endpoint) (i : nat) (c : TestCase) :
  nth_error test_cases i = Some c ->
  let recorded := nth_error (results (snd (run post))) i in
  (forall e, post (S i) (text c) = Raises e ->
     recorded = Some {| case := name c; status := ERROR |}) /\
  (forall code body, post (S i) (text c) = Responds code body -> code <> 200%Z ->
     recorded = Some {| case := name c; status := FAIL |}) /\
  (forall body, post (S i) (text c) = Responds 200 (Some body) ->
     complete body = true ->
     recorded = Some {| case := name c; status := PASS |}).
Proof.
  intros Hc recorded. subst recorded. rewrite (recorded_at post i c Hc).
  unfold verdict. split; [|split].
  - now intros e ->.
  - intros code body -> Hcode. apply Z.eqb_neq in Hcode. now rewrite Hcode.
  - intros body -> Hbody. cbn [Z.eqb Pos.eqb]. now rewrite Hbody.
Qed.

(** C3. Each of the 5 fixed test cases leaves exactly one entry in
    [results]: every turn of the loop ends normally and appends one entry,
    so the run ends with five entries, in the order of the cases, each
    with one of the three statuses.  The run ends with the summary line,
    whose numerator is the number of entries with status PASS and whose
    denominator is 5, and a rule. *)
Theorem one_result_per_case (post : endpoint) :
  let w := snd (run post) in
  (forall item w0, exists lines,
     test_one post (length test_cases) item w0
     = (inr tt, extend w0 lines [result_of post item])) /\
  fst (run post) = inr tt /\
  length test_cases = 5 /\
  length (results w) = 5 /\
  map case (results w) = map name test_cases /\
  (forall r, In r (results w) ->
     status r = PASS \/ status r = FAIL \/ status r = ERROR) /\
  exists before,
    stdout w
    = before
      ++ [(nl ++ "✅ Passed: " ++ str (passes (results w)) ++ "/" ++ str 5 ++ " ("
             ++ format_f0 (mul_int (int_truediv (passes (results w)) 5) 100)
             ++ "%)")%string;
          rule].
Proof.
  intros w. subst w. unfold run.
  split; [intros item w0; apply test_one_records|].
  destruct (run_on_prints test_cases post) as [before E]; [discriminate|].
  rewrite E. cbn [fst snd results stdout].
  split; [reflexivity|]. split; [reflexivity|].
  split; [now rewrite length_map, enumerate_length|].
  split; [|split].
  - rewrite map_map. unfold result_of. cbn [case].
    rewrite <- (map_map snd name). now rewrite enumerate_snd.
  - intros r Hr. apply in_map_iff in Hr. destruct Hr as [item [<- _]].
    apply verdict_cases.
  - exists before. reflexivity.
Qed.

(** The body of the loop reads a case at [name] and [text] only. *)
Lemma test_one_same post total i c c' w :
  name c = name c' -> text c = text c' ->
  test_one post total (i, c) w = test_one post total (i, c') w.
Proof.
  intros Hn Ht. unfold test_one, attempt, on_exception.
  rewrite Hn, Ht. reflexivity.
Qed.

Lemma loop_same post total : forall cases cases' start w,
  map name cases = map name cases' -> map text cases = map text cases' ->
  for_each (enumerate cases start) (test_one post total) w
  = for_each (enumerate cases' start) (test_one post total) w.
Proof.
  induction cases as [|c cases IH]; intros [|c' cases'] start w Hn Ht;
    try discriminate; [reflexivity|].
  simpl in Hn, Ht. injection Hn as Hn Hns. injection Ht as Ht Hts.
  unfold enumerate. cbn [length seq combine for_each].
  unfold bind. rewrite (test_one_same post total start c c' w Hn Ht).
  destruct (test_one post total (start, c') w) as [[e|[]] w']; [reflexivity|].
  apply (IH cases' (S start) w' Hns Hts).
Qed.

Lemma results_of_run_on cases post :
  results (snd (run_on cases post)) = map (result_of post) (enumerate cases 1).
Proof.
  destruct cases as [|c cases]; [reflexivity|].
  destruct (run_on_prints (c :: cases) post) as [before E]; [discriminate|].
  now rewrite E.
Qed.

(** C8. The [expected] field of the cases has no influence: two runs
    over case lists that differ at most in their [expected] values, against
    the same endpoint, end the same way with the same output and the same
    [results], hence the same statuses and the same summary; and the
    status of each case is the verdict on the reply to its request. *)
Theorem expected_is_unused (post : endpoint) (cases cases' : list TestCase) :
  map name cases = map name cases' ->
  map text cases = map text cases' ->
  run_on cases post = run_on cases' post /\
  map status (results (snd (run_on cases post)))
  = map (fun item => verdict (post (fst item) (text (snd item)))) (enumerate cases 1).
Proof.
  intros Hn Ht. split.
  - assert (Hlen : length cases = length cases')
      by (rewrite <- (length_map name cases), Hn; apply length_map).
    unfold run_on, script. rewrite !print_extends, <- Hlen.
    unfold bind.
    now rewrite (loop_same post (length cases) cases cases' 1 _ Hn Ht).
  - rewrite results_of_run_on, map_map. reflexivity.
Qed.

End Facts.

End SmokeFacts.

(** * The scripts on the concrete inputs *)

Module Scenarios.

#[local] Existing Instance Exact.interp.
#[local] Existing Instance Exact.repr.

Module Report.

Import KnowledgeReport ReportFacts.

(** The end-to-end scenario of the report: one verified discovery. *)
Example report_of_one_record :
  run (kb_of [Samples.record "A" (QArith_base.Qmake 9 10) "verified" "2024-01-01T00:00:00"])
  = (inr tt,
     [rule; "🧠 KNOWLEDGE BASE ANALYSIS"; rule;
      ("⏰ 2024-01-01 00:00:00" ++ nl)%string;
      "📚 Total Discoveries: 1";
      "📊 Average Confidence: 90.0%";
      (nl ++ "📈 Status Breakdown:")%string;
      "   verified: 1";
      (nl ++ "🔬 Latest 5 Discoveries:")%string;
      (nl ++ "   1. A")%string;
      "      Confidence: 90.0%";
      "      Status: verified";
      "      Time: 2024-01-01T00:00:00";
      (nl ++ rule)%string]).
Proof. vm_compute. reflexivity. Qed.

(** [status_breakdown] on six records with three distinct statuses. *)
Lemma status_breakdown_witness :
  Samples.six <> [] /\
  forallb (fun d => present (confidence d)) Samples.six = true /\
  forallb (fun d => present (status d)) Samples.six = true /\
  map fst (Counter (statuses_of Samples.six)) = first_occurrences (statuses_of Samples.six) /\
  list_sum (map snd (Counter (statuses_of Samples.six))) = length Samples.six.
Proof.
  assert (H1 : Samples.six <> []) by discriminate.
  assert (H2 : forallb (fun d => present (confidence d)) Samples.six = true)
    by reflexivity.
  assert (H3 : forallb (fun d => present (status d)) Samples.six = true)
    by reflexivity.
  destruct (status_breakdown Samples.six H1 H2 H3) as (_ & _ & _ & Hk & _ & _ & _ & Hs).
  repeat split; assumption.
Defined.

(** [latest_section] on six records: the last five are shown. *)
Lemma latest_section_witness :
  Samples.six <> [] /\
  forallb well_formed Samples.six = true /\
  run (kb_of Samples.six)
  = (inr tt,
     up_to_latest Samples.six
     ++ flat_map entry_lines (enumerate (skipn 1 Samples.six) 1) ++ [footer]).
Proof.
  assert (H1 : Samples.six <> []) by discriminate.
  assert (H2 : forallb well_formed Samples.six = true) by reflexivity.
  destruct (latest_section Samples.six H1 H2) as (_ & _ & _ & _ & _ & Hrun).
  repeat split; assumption.
Defined.

(** [missing_key_aborts] on a record without [title]. *)
Lemma missing_key_aborts_witness :
  In Samples.no_title [Samples.no_title] /\
  exists key out, run (kb_of [Samples.no_title]) = (inl (KeyError key), out).
Proof.
  assert (H1 : In Samples.no_title [Samples.no_title]) by (left; reflexivity).
  destruct (missing_key_aborts [Samples.no_title] Samples.no_title H1)
    as (_ & _ & _ & H).
  split; [exact H1|]. apply H; [left|]; reflexivity.
Defined.

(** C9 as stated fails on a record without [status]: the lookup error is
    raised by the counting step, right after the average; the latest
    section is not reached, so it is not its printing that raises. *)
Lemma missing_status_stops_before_latest :
  In Samples.no_status (last_slice 5 [Samples.no_status]) /\
  status Samples.no_status = None /\
  run (kb_of [Samples.no_status])
  = (inl (KeyError "status"),
     header_lines ++ ["📚 Total Discoveries: 1"; "📊 Average Confidence: 90.0%"]) /\
  ~ In latest_title (snd (run (kb_of [Samples.no_status]))).
Proof.
  split; [left; reflexivity|]. split; [reflexivity|].
  split; [vm_compute; reflexivity|].
  intros H. vm_compute in H.
  repeat (destruct H as [H|H]; [discriminate H|]). exact H.
Qed.

End Report.

Module Smoke.

Import SmokeTest SmokeFacts.

(** The end-to-end scenario of the smoke test: the first case answered
    with a complete analysis. *)
Example cardiac_case_passes :
  test_one Samples.mixed 5 (1, {| name := "Cardiac Emergency";
      text := "Severe chest pain, shortness of breath, sweating, pain radiating to jaw";
      expected := "cardiac" |}) start
  = (inr tt,
     {| stdout :=
          [(nl ++ "📋 Test 1/5: Cardiac Emergency")%string;
           "   Input: Severe chest pain, shortness of breath, sweating, pain radia...";
           "   ✅ Status: Success";
           "   🎯 Condition: cardiac";
           "   ⚠️  Urgency: high";
           "   💊 Recommendations: 2"];
        results := [{| case := "Cardiac Emergency"; status := "✅ PASS" |}] |}).
Proof. vm_compute. reflexivity. Qed.

(** C1 as stated fails: against an endpoint that answers every request
    with status 200 and a body without the [analysis] key, the run does not
    abort; every case is recorded as ERROR. *)
Lemma missing_analysis_does_not_abort :
  lacks_key Samples.empty_body /\
  fst (run Samples.without_analysis) = inr tt /\
  ~ (exists e, fst (run Samples.without_analysis) = inl e) /\
  results (snd (run Samples.without_analysis))
  = [{| case := "Cardiac Emergency"; status := "❌ ERROR" |};
     {| case := "Stroke Symptoms"; status := "❌ ERROR" |};
     {| case := "Appendicitis"; status := "❌ ERROR" |};
     {| case := "Pneumonia"; status := "❌ ERROR" |};
     {| case := "Diabetic Emergency"; status := "❌ ERROR" |}].
Proof.
  split; [left; reflexivity|]. split; [vm_compute; reflexivity|].
  split; [|vm_compute; reflexivity].
  intros [e H]. vm_compute in H. discriminate H.
Qed.

(** [missing_key_is_caught] on the first case of that endpoint. *)
Lemma missing_key_is_caught_witness :
  nth_error test_cases 0 = Some (nth 0 test_cases (Build_TestCase "" "" "")) /\
  lacks_key Samples.empty_body /\
  nth_error (results (snd (run Samples.without_analysis))) 0
  = Some {| case := "Cardiac Emergency"; status := ERROR |}.
Proof.
  assert (H1 : nth_error test_cases 0 = Some (nth 0 test_cases (Build_TestCase "" "" "")))
    by reflexivity.
  assert (H2 : lacks_key Samples.empty_body) by (left; reflexivity).
  destruct (missing_key_is_caught Samples.without_analysis 0 _ Samples.empty_body
              H1 eq_refl H2) as (_ & _ & _ & H).
  repeat split; assumption.
Defined.

(** [case_status] on the first three cases of the mixed endpoint. *)
Lemma case_status_witness :
  nth_error (results (snd (run Samples.mixed))) 0
  = Some {| case := "Cardiac Emergency"; status := PASS |} /\
  nth_error (results (snd (run Samples.mixed))) 1
  = Some {| case := "Stroke Symptoms"; status := FAIL |} /\
  nth_error (results (snd (run Samples.mixed))) 2
  = Some {| case := "Appendicitis"; status := ERROR |}.
Proof.
  split; [|split].
  - destruct (case_status Samples.mixed 0 _ eq_refl) as (_ & _ & H).
    exact (H Samples.good_body eq_refl eq_refl).
  - destruct (case_status Samples.mixed 1 _ eq_refl) as (_ & H & _).
    refine (H 404%Z None eq_refl _). discriminate.
  - destruct (case_status Samples.mixed 2 _ eq_refl) as (H & _ & _).
    exact (H (RequestException "Connection refused") eq_refl).
Defined.

(** [expected_is_unused] on the five cases and their blanked copies. *)
Lemma expected_is_unused_witness :
  map name test_cases = map name Samples.blanked /\
  map text test_cases = map text Samples.blanked /\
  map expected test_cases <> map expected Samples.blanked /\
  run_on test_cases Samples.mixed = run_on Samples.blanked Samples.mixed.
Proof.
  assert (H1 : map name test_cases = map name Samples.blanked) by reflexivity.
  assert (H2 : map text test_cases = map text Samples.blanked) by reflexivity.
  destruct (expected_is_unused Samples.mixed test_cases Samples.blanked H1 H2)
    as (H & _).
  repeat split; try assumption. discriminate.
Defined.

End Smoke.

End Scenarios.

(** * More on the knowledge report: how a run ends *)

Module ReportRuns.

Import PyFacts KnowledgeReport ReportFacts.

Section Runs.

Context {I : Interp}.

(** No line of the report but the last one is the footer. *)
Lemma header_without_footer : ~ In footer header_lines.
Proof.
  intros H. cbn in H.
  repeat (destruct H as [H|H]; [discriminate H|]). exact H.
Qed.

Lemma entry_without_footer item : ~ In footer (entry_lines item).
Proof.
  unfold entry_lines.
  destruct (title (snd item)), (confidence (snd item)), (status (snd item)),
    (timestamp (snd item)); intros H; cbn in H;
    repeat (destruct H as [H|H]; [discriminate H|]); exact H.
Qed.

Lemma statuses_without_footer c : ~ In footer (map status_line c).
Proof.
  intros H. apply in_map_iff in H. destruct H as [item [H _]].
  cbn in H. discriminate H.
Qed.

Lemma up_to_latest_without_footer ds : ~ In footer (up_to_latest ds).
Proof.
  unfold up_to_latest, opening. rewrite !in_app_iff.
  intros [[H|H]|[H|[H|H]]].
  - exact (header_without_footer H).
  - cbn in H. destruct H as [H|H]; [discriminate H|exact H].
  - cbn in H. repeat (destruct H as [H|H]; [discriminate H|]). exact H.
  - exact (statuses_without_footer _ H).
  - cbn in H. destruct H as [H|H]; [discriminate H|exact H].
Qed.

(** What the latest section prints, however it ends, has no footer. *)
Lemma print_latest_without_footer item out :
  exists r extra, print_latest item out = (r, out ++ extra) /\ ~ In footer extra.
Proof.
  destruct item as [i d]. unfold print_latest.
  destruct (title d) as [t|]; simpl getitem;
    [rewrite lift_ok_then, print_then
    |rewrite lift_raised_then; exists (inl (KeyError "title")), [];
     rewrite app_nil_r; split; [reflexivity|intros []]].
  destruct (confidence d) as [c|]; simpl getitem;
    [rewrite lift_ok_then, print_then
    |rewrite lift_raised_then; eexists _, [_]; split; [reflexivity|]].
  2:{ intros H. cbn in H. destruct H as [H|H]; [discriminate H|exact H]. }
  destruct (status d) as [s|]; simpl getitem;
    [rewrite lift_ok_then, print_then
    |rewrite lift_raised_then; eexists _, [_; _];
     split; [now rewrite <- !app_assoc|]].
  2:{ intros H. cbn in H.
      repeat (destruct H as [H|H]; [discriminate H|]). exact H. }
  destruct (timestamp d) as [ts|]; simpl getitem;
    [rewrite lift_ok_then
    |rewrite lift_raised_then; eexists _, [_; _; _];
     split; [now rewrite <- !app_assoc|]].
  2:{ intros H. cbn in H.
      repeat (destruct H as [H|H]; [discriminate H|]). exact H. }
  unfold print. eexists _, [_; _; _; _]. split; [now rewrite <- !app_assoc|].
  intros H. cbn in H.
  repeat (destruct H as [H|H]; [discriminate H|]). exact H.
Qed.

Lemma for_each_latest_without_footer items : forall out,
  exists r extra,
    for_each items print_latest out = (r, out ++ extra) /\ ~ In footer extra.
Proof.
  induction items as [|item items IH]; intros out; simpl.
  - exists (inr tt), []. unfold ret. rewrite app_nil_r. split; [reflexivity|intros []].
  - destruct (print_latest_without_footer item out) as [r [extra [E N]]].
    destruct r as [e|[]].
    + exists (inl e), extra. split; [now apply bind_raised|exact N].
    + erewrite bind_ok by exact E.
      destruct (IH (out ++ extra)) as [r' [extra' [E' N']]].
      exists r', (extra ++ extra'). split; [now rewrite E', <- app_assoc|].
      rewrite in_app_iff. tauto.
Qed.

(** With every [confidence] and [status] there and the last five records
    whole, the run prints the whole report. *)
Lemma run_whole_report (ds : list Discovery) :
  ds <> [] ->
  forallb (fun d => present (confidence d)) ds = true ->
  forallb (fun d => present (status d)) ds = true ->
  forallb well_formed (last_slice 5 ds) = true ->
  run (kb_of ds)
  = (inr tt,
     up_to_latest ds
     ++ flat_map entry_lines (enumerate (last_slice 5 ds) 1) ++ [footer]).
Proof.
  intros Hne Hc Hs Hlast. rewrite (run_reaches_latest ds Hne Hc Hs).
  erewrite bind_ok
    by (apply for_each_latest_ok; rewrite forallb_enumerate; exact Hlast).
  unfold print. now rewrite <- app_assoc.
Qed.

(** ** The properties *)

(** X1. For a knowledge base whose [discoveries] key is absent or holds
    a list of records, whatever keys the records lack, the output of a run
    starts with the header and the total number of discoveries: they are
    printed before any record is read, so they are there also when the run
    stops on a missing key. *)
Theorem opening_always_printed (kb : KnowledgeBase) :
  exists rest,
    snd (run kb)
    = header_lines ++ total_line (length (dict_get (discoveries kb) [])) :: rest.
Proof.
  destruct kb as [[ds|]]; [|now exists [footer]].
  change (run {| discoveries := Some ds |}) with (run (kb_of ds)).
  simpl dict_get. destruct ds as [|d ds]; [now exists [footer]|].
  set (l := d :: ds).
  assert (Hne : l <> []) by discriminate.
  destruct (forallb (fun d => present (confidence d)) l) eqn:Hc.
  2:{ rewrite (run_no_confidence l Hc). now exists []. }
  destruct (forallb (fun d => present (status d)) l) eqn:Hs.
  2:{ rewrite (run_no_status l Hc Hs). exists [average_of l].
      unfold opening. now rewrite <- app_assoc. }
  rewrite (run_reaches_latest l Hne Hc Hs).
  destruct (for_each_latest_extends (enumerate (last_slice 5 l) 1) (up_to_latest l))
    as [r [extra E]].
  unfold up_to_latest, opening in *.
  destruct r as [e|[]].
  - erewrite bind_raised by exact E. cbn [snd].
    eexists. rewrite <- !app_assoc. reflexivity.
  - erewrite bind_ok by exact E. unfold print. cbn [snd].
    eexists. rewrite <- !app_assoc. reflexivity.
Qed.

(** X2. [title] and [timestamp] are read for the last five records
    only.  When every record has its [confidence] and [status] and the last
    five have their four keys, the run ends normally with the whole report,
    whatever the earlier records lack of [title] and [timestamp]. *)
Theorem early_records_need_two_keys (ds : list Discovery) :
  ds <> [] ->
  forallb (fun d => present (confidence d)) ds = true ->
  forallb (fun d => present (status d)) ds = true ->
  forallb well_formed (last_slice 5 ds) = true ->
  run (kb_of ds)
  = (inr tt,
     up_to_latest ds
     ++ flat_map entry_lines (enumerate (last_slice 5 ds) 1) ++ [footer]).
Proof.
  intros Hne Hc Hs Hlast. rewrite (run_reaches_latest ds Hne Hc Hs).
  erewrite bind_ok
    by (apply for_each_latest_ok; rewrite forallb_enumerate; exact Hlast).
  unfold print. now rewrite <- app_assoc.
Qed.

(** X3. On a list of records whose values, where present, have the
    types of the data model (a float for [confidence], text for the other
    keys), a run ends normally exactly when the list is empty, or every
    record has its [confidence] and [status] and each of the last five
    records has its four keys; otherwise a key is missing and the run ends
    with the lookup error of a missing key. *)
Theorem ends_normally_iff (ds : list Discovery) :
  (fst (run (kb_of ds)) = inr tt <->
   ds = [] \/
   (forallb (fun d => present (confidence d)) ds = true /\
    forallb (fun d => present (status d)) ds = true /\
    forallb well_formed (last_slice 5 ds) = true)) /\
  (fst (run (kb_of ds)) = inr tt \/
   exists key, fst (run (kb_of ds)) = inl (KeyError key)).
Proof.
  destruct ds as [|d ds]; [split; [split; [now left|reflexivity]|now left]|].
  set (l := d :: ds).
  assert (Hne : l <> []) by discriminate.
  destruct (forallb (fun d => present (confidence d)) l) eqn:Hc.
  2:{ rewrite (run_no_confidence l Hc). cbn [fst]. split; [|right; now eexists].
      split; [discriminate|]. intros [H|[H _]]; [now elim Hne|discriminate]. }
  destruct (forallb (fun d => present (status d)) l) eqn:Hs.
  2:{ rewrite (run_no_status l Hc Hs). cbn [fst]. split; [|right; now eexists].
      split; [discriminate|]. intros [H|[_ [H _]]]; [now elim Hne|discriminate]. }
  destruct (forallb well_formed (last_slice 5 l)) eqn:Hlast.
  - rewrite (run_whole_report l Hne Hc Hs Hlast). cbn [fst].
    split; [|now left]. split; [now right|reflexivity].
  - rewrite (run_reaches_latest l Hne Hc Hs).
    destruct (for_each_latest_raises (enumerate (last_slice 5 l) 1) (up_to_latest l))
      as [key [extra [_ E]]].
    + rewrite (forallb_enumerate
                 (fun d => present (confidence d) && present (status d))).
      unfold last_slice. apply forallb_skipn.
      rewrite forallb_forall in *. intros x Hx.
      now rewrite (Hc x Hx), (Hs x Hx).
    + now rewrite forallb_enumerate.
    + erewrite bind_raised by exact E. cbn [fst].
      split; [|right; now eexists].
      split; [discriminate|]. intros [H|[_ [_ H]]]; [now elim Hne|discriminate].
Qed.

(** X4. The footer is printed exactly when the run ends normally: a
    report cut short by a missing key never shows the closing rule. *)
Theorem footer_iff_ends_normally (ds : list Discovery) :
  In footer (snd (run (kb_of ds))) <-> fst (run (kb_of ds)) = inr tt.
Proof.
  destruct ds as [|d ds]; [split; [reflexivity|intros _; cbn; tauto]|].
  set (l := d :: ds).
  assert (Hne : l <> []) by discriminate.
  assert (Hopen : ~ In footer (opening l)).
  { unfold opening. rewrite in_app_iff. intros [H|H].
    - exact (header_without_footer H).
    - cbn in H. destruct H as [H|H]; [discriminate H|exact H]. }
  destruct (forallb (fun d => present (confidence d)) l) eqn:Hc.
  2:{ rewrite (run_no_confidence l Hc). cbn [fst snd].
      split; [intros H; now elim Hopen|discriminate]. }
  destruct (forallb (fun d => present (status d)) l) eqn:Hs.
  2:{ rewrite (run_no_status l Hc Hs). cbn [fst snd].
      split; [|discriminate]. rewrite in_app_iff. intros [H|H]; [now elim Hopen|].
      cbn in H. destruct H as [H|H]; [discriminate H|contradiction]. }
  rewrite (run_reaches_latest l Hne Hc Hs).
  destruct (for_each_latest_without_footer (enumerate (last_slice 5 l) 1) (up_to_latest l))
    as [r [extra [E N]]].
  destruct r as [e|[]].
  - erewrite bind_raised by exact E. cbn [fst snd].
    split; [|discriminate]. rewrite in_app_iff. intros [H|H]; [|now elim N].
    now elim (up_to_latest_without_footer l H).
  - erewrite bind_ok by exact E. unfold print. cbn [fst snd].
    split; [reflexivity|]. intros _. rewrite in_app_iff. right. now left.
Qed.

End Runs.

End ReportRuns.

(** * More on the smoke test: what a run prints and records *)

Module SmokeRuns.

Import PyFacts SmokeTest SmokeFacts.

Section Runs.

Context {I : Interp} {R : Repr}.

Ltac steps :=
  repeat progress
    rewrite ?print_extends, ?append_then, ?lift_ok_then, ?lift_raised_then,
      ?print_last, ?append_last, ?extend_extend.

(** The statements under [try:] read nothing of the state: from any
    state they end as from the initial one, and add the same output and
    the same entries. *)
Lemma attempt_frame post i c w :
  attempt post i c w
  = (fst (attempt post i c start),
     extend w (stdout (snd (attempt post i c start)))
              (results (snd (attempt post i c start)))).
Proof.
  unfold attempt.
  destruct (post i (text c)) as [e|code body].
  { unfold raise. cbn. now rewrite extend_nil. }
  destruct (code =? 200)%Z.
  2:{ steps. reflexivity. }
  destruct body as [b|]; simpl response_json.
  2:{ steps. cbn. now rewrite extend_nil. }
  steps.
  destruct (subscript b "analysis") as [e|a]; [steps; reflexivity|steps].
  destruct (subscript a "condition") as [e|cnd]; [steps; reflexivity|steps].
  destruct (subscript a "urgency") as [e|urg]; [steps; reflexivity|steps].
  destruct (subscript a "recommendations") as [e|recs]; [steps; reflexivity|steps].
  destruct (py_len recs) as [e|n]; steps; reflexivity.
Qed.

(** So does the body of the loop: a case neither reads nor alters what
    the earlier cases printed and recorded. *)
Lemma test_one_frame post total item w :
  test_one post total item w
  = (inr tt,
     extend w (stdout (snd (test_one post total item start)))
              (results (snd (test_one post total item start)))).
Proof.
  destruct item as [i c]. unfold test_one. steps. unfold try_except.
  match goal with |- context [attempt post i c (extend w ?l ?r)] =>
    rewrite (attempt_frame post i c (extend w l r))
  end.
  match goal with |- context [attempt post i c (extend start ?l ?r)] =>
    rewrite (attempt_frame post i c (extend start l r))
  end.
  destruct (attempt post i c start) as [[e|[]] wa]; cbn [fst snd].
  - rewrite !on_exception_records. steps.
    unfold extend, start. cbn [stdout results app snd]. reflexivity.
  - steps. unfold extend, start. cbn [stdout results app snd]. reflexivity.
Qed.

Lemma test_one_entry post total item :
  results (snd (test_one post total item start)) = [result_of post item].
Proof.
  destruct (test_one_records post total item start) as [lines E].
  now rewrite E.
Qed.

(** The loop prints the output of each case after the other. *)
Lemma loop_output post total items : forall w,
  for_each items (test_one post total) w
  = (inr tt,
     extend w (flat_map (fun item => stdout (snd (test_one post total item start))) items)
              (map (result_of post) items)).
Proof.
  induction items as [|item items IH]; intros w; simpl.
  - unfold ret. now rewrite extend_nil.
  - erewrite bind_ok by apply test_one_frame.
    rewrite IH, extend_extend, test_one_entry. reflexivity.
Qed.

(** The whole output of a run over at least one case. *)
Lemma run_on_output cases post :
  cases <> [] ->
  run_on cases post
  = (inr tt,
     {| stdout :=
          [rule; "🧪 MEDICAL AI TEST SUITE"; rule; ("⏰ Started: " ++ now ++ nl)%string]
          ++ flat_map (fun item => stdout (snd (test_one post (length cases) item start)))
               (enumerate cases 1)
          ++ [(nl ++ rule)%string; "📊 TEST RESULTS SUMMARY"; rule]
          ++ map (fun r => (status r ++ " " ++ case r)%string)
               (map (result_of post) (enumerate cases 1))
          ++ [summary_line (passes (map (result_of post) (enumerate cases 1)))
                (length cases); rule];
        results := map (result_of post) (enumerate cases 1) |}).
Proof.
  intros Hne. unfold run_on, script. steps.
  erewrite bind_ok by apply loop_output.
  rewrite summary_prints by (destruct cases; [contradiction|discriminate]).
  steps. unfold extend, start. cbn [stdout results app].
  rewrite count_passed_passes, app_nil_r, <- ?app_assoc. reflexivity.
Qed.

Lemma statuses_differ : PASS <> FAIL /\ PASS <> ERROR /\ FAIL <> ERROR.
Proof. repeat split; discriminate. Qed.

Lemma verdict_counts post items :
  let sts := map status (map (result_of post) items) in
  count_occ string_dec sts PASS + count_occ string_dec sts FAIL
  + count_occ string_dec sts ERROR = length items.
Proof.
  destruct statuses_differ as (Hpf & Hpe & Hfe).
  induction items as [|item items IH]; [reflexivity|].
  cbn [map length]. cbn [map length] in IH. unfold result_of at 1 3 5. cbn [status].
  destruct (verdict_cases (post (fst item) (text (snd item)))) as [E|[E|E]];
    rewrite E.
  - rewrite count_occ_cons_eq by reflexivity.
    rewrite !count_occ_cons_neq by assumption. lia.
  - rewrite (count_occ_cons_neq string_dec _ (x := FAIL) (y := PASS))
      by (intros H; now apply Hpf).
    rewrite count_occ_cons_eq by reflexivity.
    rewrite count_occ_cons_neq by assumption. lia.
  - rewrite (count_occ_cons_neq string_dec _ (x := ERROR) (y := PASS))
      by (intros H; now apply Hpe).
    rewrite (count_occ_cons_neq string_dec _ (x := ERROR) (y := FAIL))
      by (intros H; now apply Hfe).
    rewrite count_occ_cons_eq by reflexivity. lia.
Qed.

(** ** The properties *)

(** X5. A run over a list of cases ends normally exactly when the list
    is not empty, and then whatever the endpoint does: no reply makes the
    run stop.  Over an empty list the percentage of the summary divides by
    zero, after the header of the summary is printed.  In both cases
    [results] has one entry per case, named after the cases in their order. *)
Theorem run_ends_normally_iff (cases : list TestCase) (post : endpoint) :
  (fst (run_on cases post) = inr tt <-> cases <> []) /\
  run_on [] post
  = (inl ZeroDivisionError,
     {| stdout := [rule; "🧪 MEDICAL AI TEST SUITE"; rule;
                   ("⏰ Started: " ++ now ++ nl)%string;
                   (nl ++ rule)%string; "📊 TEST RESULTS SUMMARY"; rule];
        results := [] |}) /\
  length (results (snd (run_on cases post))) = length cases /\
  map case (results (snd (run_on cases post))) = map name cases.
Proof.
  split; [|split; [reflexivity|]].
  - destruct cases as [|c cases].
    + split; [discriminate|]. intros H. now elim H.
    + rewrite run_on_output by discriminate. split; [discriminate|reflexivity].
  - rewrite results_of_run_on, length_map, enumerate_length.
    split; [reflexivity|].
    rewrite map_map. unfold result_of. cbn [case].
    rewrite <- (map_map snd name). now rewrite enumerate_snd.
Qed.

(** X6. The output of a run is made of the four lines of the header,
    the output of each case on its own, one case after the other, and the
    summary: its three title lines, one line [status name] per entry of
    [results] in the order of the run, the line of the totals and a rule. *)
Theorem output_of_run (post : endpoint) :
  let rs := results (snd (run post)) in
  stdout (snd (run post))
  = [rule; "🧪 MEDICAL AI TEST SUITE"; rule; ("⏰ Started: " ++ now ++ nl)%string]
    ++ flat_map (fun item => stdout (snd (test_one post 5 item start)))
         (enumerate test_cases 1)
    ++ [(nl ++ rule)%string; "📊 TEST RESULTS SUMMARY"; rule]
    ++ map (fun r => (status r ++ " " ++ case r)%string) rs
    ++ [summary_line (passes rs) 5; rule].
Proof.
  intros rs. subst rs. unfold run.
  rewrite (run_on_output test_cases post) by discriminate. reflexivity.
Qed.

(** X7. The status of a case says what its request came back with: PASS
    exactly for a response with status 200 and a complete analysis, FAIL
    exactly for a response with another status, ERROR exactly for a raised
    exception or a response with status 200 whose body is not JSON or not a
    complete analysis. *)
Theorem status_iff (post : endpoint) (i : nat) (c : TestCase) :
  nth_error test_cases i = Some c ->
  exists st,
    nth_error (results (snd (run post))) i = Some {| case := name c; status := st |} /\
    (st = PASS <->
     exists b, post (S i) (text c) = Responds 200 (Some b) /\ complete b = true) /\
    (st = FAIL <->
     exists code body, post (S i) (text c) = Responds code body /\ code <> 200%Z) /\
    (st = ERROR <->
     (exists e, post (S i) (text c) = Raises e) \/
     post (S i) (text c) = Responds 200 None \/
     exists b, post (S i) (text c) = Responds 200 (Some b) /\ complete b = false).
Proof.
  intros Hc. exists (verdict (post (S i) (text c))).
  split; [exact (recorded_at post i c Hc)|].
  destruct statuses_differ as (Hpf & Hpe & Hfe).
  unfold verdict. destruct (post (S i) (text c)) as [e|code body].
  { split; [|split].
    - split; [intros H; now elim Hpe|intros [b [H _]]; discriminate H].
    - split; [intros H; now elim Hfe|intros [k [b [H _]]]; discriminate H].
    - split; [intros _; left; now exists e|reflexivity]. }
  destruct (code =? 200)%Z eqn:Hcode.
  2:{ apply Z.eqb_neq in Hcode. split; [|split].
      - split; [intros H; now elim Hpf|].
        intros [b [H _]]. injection H as H _. now elim Hcode.
      - split; [intros _; now exists code, body|reflexivity].
      - split; [intros H; now elim Hfe|].
        intros [[e H]|[H|[b [H _]]]]; try discriminate H;
          injection H as H; now elim Hcode. }
  apply Z.eqb_eq in Hcode. subst code.
  destruct body as [b|].
  2:{ split; [|split].
      - split; [intros H; now elim Hpe|intros [b [H _]]; discriminate H].
      - split; [intros H; now elim Hfe|].
        intros [k [b [H N]]]. injection H as H _. now elim N.
      - split; [intros _; right; now left|reflexivity]. }
  destruct (complete b) eqn:Hb; (split; [|split]).
  - split; [intros _; now exists b|reflexivity].
  - split; [intros H; now elim Hpf|].
    intros [k [b' [H N]]]. injection H as H _. now elim N.
  - split; [intros H; now elim Hpe|].
    intros [[e H]|[H|[b' [H Hb']]]]; try discriminate H.
    injection H as H. subst b'. rewrite Hb in Hb'. discriminate Hb'.
  - split; [intros H; now elim Hpe|].
    intros [b' [H Hb']]. injection H as H. subst b'. rewrite Hb in Hb'. discriminate Hb'.
  - split; [intros H; now elim Hfe|].
    intros [k [b' [H N]]]. injection H as H _. now elim N.
  - split; [intros _; right; right; now exists b|reflexivity].
Qed.

(** X8. The three statuses share out the cases: in [results] the
    numbers of PASS, FAIL and ERROR entries add up to the number of cases,
    so the passed count of the summary never exceeds the total. *)
Theorem statuses_add_up (cases : list TestCase) (post : endpoint) :
  let sts := map status (results (snd (run_on cases post))) in
  count_occ string_dec sts PASS + count_occ string_dec sts FAIL
  + count_occ string_dec sts ERROR = length cases /\
  count_passed (results (snd (run_on cases post))) <= length cases.
Proof.
  intros sts. subst sts. rewrite results_of_run_on.
  assert (H := verdict_counts post (enumerate cases 1)).
  cbv zeta in H. rewrite enumerate_length in H.
  split; [exact H|]. rewrite count_passed_passes. unfold passes. lia.
Qed.

(** X9. A case neither reads nor alters what the earlier cases printed
    and recorded: from any state it ends normally and adds what it adds
    from the initial state.  And it depends on the endpoint through the
    reply to its own request only. *)
Theorem cases_do_not_interfere (post post' : endpoint) (total i : nat)
    (c : TestCase) (w : world) :
  test_one post total (i, c) w
  = (inr tt,
     extend w (stdout (snd (test_one post total (i, c) start)))
              (results (snd (test_one post total (i, c) start)))) /\
  (post i (text c) = post' i (text c) ->
   test_one post total (i, c) w = test_one post' total (i, c) w).
Proof.
  split; [apply test_one_frame|].
  intros H. unfold test_one, attempt. now rewrite H.
Qed.

(** X11. What a case prints when its request fails.  When the request
    raises, the case prints the text of the exception on an error line and
    records ERROR; when the response has another status than 200, the case
    prints that status on a failure line and records FAIL, and the body is
    not read.  Nothing else is printed after the two lines that announce
    the case. *)
Theorem failure_diagnostics (post : endpoint) (total i : nat) (c : TestCase) :
  let announce :=
    [(nl ++ "📋 Test " ++ str i ++ "/" ++ str total ++ ": " ++ name c)%string;
     ("   Input: " ++ substring 0 60 (text c) ++ "...")%string] in
  (forall e, post i (text c) = Raises e ->
     test_one post total (i, c) start
     = (inr tt,
        {| stdout := announce ++ [("   ❌ Error: " ++ str_exc e)%string];
           results := [{| case := name c; status := ERROR |}] |})) /\
  (forall code body, post i (text c) = Responds code body -> code <> 200%Z ->
     test_one post total (i, c) start
     = (inr tt,
        {| stdout := announce
             ++ [("   ❌ Status: Failed (" ++ str_int code ++ ")")%string];
           results := [{| case := name c; status := FAIL |}] |})).
Proof.
  intros announce. subst announce. split.
  - intros e H. unfold test_one. steps. unfold try_except, attempt.
    rewrite H. unfold raise. rewrite on_exception_records. steps. reflexivity.
  - intros code body H Hcode. apply Z.eqb_neq in Hcode.
    unfold test_one. steps. unfold try_except, attempt.
    rewrite H, Hcode. steps. reflexivity.
Qed.

(** X12. The success line is printed as soon as a response with status
    200 has a JSON body, before the keys of the body are looked up: a case
    prints it exactly when its request came back that way, also when a
    missing key then makes the case end as ERROR. *)
Theorem success_line_iff (post : endpoint) (total i : nat) (c : TestCase) :
  In "   ✅ Status: Success" (stdout (snd (test_one post total (i, c) start)))
  <-> exists b, post i (text c) = Responds 200 (Some b).
Proof.
  unfold test_one. steps. unfold try_except, attempt.
  destruct (post i (text c)) as [e|code body].
  { unfold raise. rewrite on_exception_records. steps.
    split; [|intros [b H]; discriminate H].
    intros H. cbn in H.
    repeat (destruct H as [H|H]; [discriminate H|]). contradiction. }
  destruct (code =? 200)%Z eqn:Hcode.
  2:{ steps. apply Z.eqb_neq in Hcode. split.
      - intros H. cbn in H.
        repeat (destruct H as [H|H]; [discriminate H|]). contradiction.
      - intros [b H]. injection H as H _. now elim Hcode. }
  apply Z.eqb_eq in Hcode. subst code.
  destruct body as [b|]; simpl response_json.
  2:{ steps. rewrite on_exception_records. steps.
      split; [|intros [b H]; discriminate H].
      intros H. cbn in H.
      repeat (destruct H as [H|H]; [discriminate H|]). contradiction. }
  split; [intros _; now exists b|intros _].
  steps.
  match goal with |- context [bind ?m ?k (extend start ?l ?r)] =>
    enough (Hgrow : exists r' extra,
              bind m k (extend start l r) = (r', extend (extend start l r) extra []) \/
              exists rs, bind m k (extend start l r)
                         = (r', extend (extend start l r) extra rs))
  end.
  - destruct Hgrow as [r' [extra [E|[rs E]]]]; rewrite E;
      destruct r' as [e|[]]; try rewrite on_exception_records; steps;
      unfold extend, start; cbn [stdout results app snd];
      right; right; now left.
  - destruct (subscript b "analysis") as [e|a];
      [steps; eexists _, []; left; now rewrite extend_nil|steps].
    destruct (subscript a "condition") as [e|cnd];
      [steps; eexists _, []; left; now rewrite extend_nil|steps].
    destruct (subscript a "urgency") as [e|urg];
      [steps; eexists _, _; left; reflexivity|steps].
    destruct (subscript a "recommendations") as [e|recs];
      [steps; eexists _, _; left; reflexivity|steps].
    destruct (py_len recs) as [e|n]; steps.
    + eexists _, _; left; reflexivity.
    + eexists _, _; right; eexists; reflexivity.
Qed.

End Runs.

End SmokeRuns.

(** * The further properties on the concrete inputs *)

Module MoreScenarios.

#[local] Existing Instance Exact.interp.
#[local] Existing Instance Exact.repr.

Module Report.

Import KnowledgeReport ReportRuns.

(** [early_records_need_two_keys] on six records whose first one has
    neither [title] nor [timestamp]: the run ends normally. *)
Lemma early_records_need_two_keys_witness :
  MoreSamples.untitled_first <> [] /\
  forallb (fun d => present (confidence d)) MoreSamples.untitled_first = true /\
  forallb (fun d => present (status d)) MoreSamples.untitled_first = true /\
  forallb well_formed (last_slice 5 MoreSamples.untitled_first) = true /\
  forallb well_formed MoreSamples.untitled_first = false /\
  fst (run (kb_of MoreSamples.untitled_first)) = inr tt.
Proof.
  assert (H1 : MoreSamples.untitled_first <> []) by discriminate.
  assert (H2 : forallb (fun d => present (confidence d)) MoreSamples.untitled_first = true)
    by reflexivity.
  assert (H3 : forallb (fun d => present (status d)) MoreSamples.untitled_first = true)
    by reflexivity.
  assert (H4 : forallb well_formed (last_slice 5 MoreSamples.untitled_first) = true)
    by reflexivity.
  assert (H := early_records_need_two_keys MoreSamples.untitled_first H1 H2 H3 H4).
  split; [exact H1|]. split; [exact H2|]. split; [exact H3|].
  split; [exact H4|]. split; [reflexivity|].
  rewrite H. reflexivity.
Defined.

End Report.

Module Smoke.

Import SmokeTest SmokeRuns.

(** [status_iff] on the first case of the mixed endpoint, which is
    answered with a complete analysis. *)
Lemma status_iff_witness :
  exists st,
    nth_error (results (snd (run Samples.mixed))) 0
    = Some {| case := "Cardiac Emergency"; status := st |} /\ st = PASS.
Proof.
  destruct (status_iff Samples.mixed 0 _ eq_refl) as [st [Hrec [Hpass _]]].
  exists st. split; [exact Hrec|].
  apply Hpass. exists Samples.good_body. split; reflexivity.
Defined.

(** [failure_diagnostics] on the second and third requests of the mixed
    endpoint: a 404, and a refused connection. *)
Lemma failure_diagnostics_witness :
  stdout (snd (test_one Samples.mixed 5 (2, nth 1 test_cases (Build_TestCase "" "" "")) start))
  = [(nl ++ "📋 Test 2/5: Stroke Symptoms")%string;
     "   Input: Sudden facial drooping, arm weakness, speech difficulty, con...";
     "   ❌ Status: Failed (404)"] /\
  stdout (snd (test_one Samples.mixed 5 (3, nth 2 test_cases (Build_TestCase "" "" "")) start))
  = [(nl ++ "📋 Test 3/5: Appendicitis")%string;
     "   Input: Right lower quadrant pain, nausea, vomiting, fever, rebound ...";
     "   ❌ Error: Connection refused"].
Proof.
  split.
  - destruct (failure_diagnostics Samples.mixed 5 2 (nth 1 test_cases (Build_TestCase "" "" "")))
      as [_ H].
    rewrite (H 404%Z None eq_refl); [reflexivity|discriminate].
  - destruct (failure_diagnostics Samples.mixed 5 3 (nth 2 test_cases (Build_TestCase "" "" "")))
      as [H _].
    rewrite (H (RequestException "Connection refused") eq_refl). reflexivity.
Defined.

End Smoke.

End MoreScenarios.

(** * The average confidence on binary64 floats *)

Module AverageFacts.

Import PyFacts KnowledgeReport ReportFacts.

Section Average.

Variable fsum : list PrimFloat.float -> PrimFloat.float.
Variable clock : string.








(** ** The claim *)


End Average.

End AverageFacts.

(** * Floats and response shapes on the concrete inputs *)

Module FurtherScenarios.

Module Report.

Import KnowledgeReport AverageFacts.



End Report.

Module Smoke.

Import SmokeTest SmokeFacts.

#[local] Existing Instance Exact.interp.
#[local] Existing Instance Exact.repr.

(** C2 as stated fails on a body that has the three keys of [analysis]
    with a number under [recommendations]: [len] of the number raises
    inside the [try] block and the cases are recorded as ERROR, not PASS. *)
Lemma unsized_recommendations_is_error :
  (exists analysis condition urgency recommendations,
     subscript FloatSamples.unsized_body "analysis" = inr analysis /\
     subscript analysis "condition" = inr condition /\
     subscript analysis "urgency" = inr urgency /\
     subscript analysis "recommendations" = inr recommendations) /\
  complete FloatSamples.unsized_body = false /\
  results (snd (run FloatSamples.unsized))
  = [{| case := "Cardiac Emergency"; status := "❌ ERROR" |};
     {| case := "Stroke Symptoms"; status := "❌ ERROR" |};
     {| case := "Appendicitis"; status := "❌ ERROR" |};
     {| case := "Pneumonia"; status := "❌ ERROR" |};
     {| case := "Diabetic Emergency"; status := "❌ ERROR" |}] /\
  nth_error (results (snd (run FloatSamples.unsized))) 0
  <> Some {| case := "Cardiac Emergency"; status := PASS |}.
Proof.
  split; [|split; [reflexivity|split; [vm_compute; reflexivity|]]].
  - do 4 eexists. repeat split; reflexivity.
  - vm_compute. discriminate.
Qed.

End Smoke.

End FurtherScenarios.
